(** * Smart stock ordering: the front-end state handlers and the
      orchestration contract they talk to

    The development embeds three React components of the repository

    - [frontend/src/components/sales/SalesAutoDeduction.tsx],
    - the setup wizard ([SetupWizard], [handleNext] / [handleBack]),
    - [frontend/src/components/supplier-api-integrations/SupplierAPIIntegrations.tsx],

    as state-passing functions: a component's [useState] cells become one
    record, every handler becomes a function on that record, and an [async]
    handler is cut at its [await fetch(...)] into the part that runs at the
    click (it builds the request) and the part that runs on the reply.
    A handler reads the state as the last update left it (React renders
    each update before the next event), and a control takes a click only
    where the JSX renders it enabled.

    The server behind the [/api/...] endpoints (registry, order lifecycle,
    POS synchronisation) is not part of the sources; the module [Backend]
    states it from the written specification and says so at each definition. *)

From Stdlib Require Import ZArith String List Bool Lia.
From Stdlib Require Import Floats.PrimFloat.
From stdpp Require Import base strings list gmap pretty.

Local Open Scope string_scope.
Local Open Scope list_scope.

(** ** JavaScript values *)

Module JS.

(** A JavaScript [number] is an IEEE 754 binary64 value. *)
Definition number : Type := float.

(** Truthiness of a string: every string but [''] is truthy. *)
Definition truthy (s : string) : bool :=
  match s with
  | EmptyString => false
  | String _ _ => true
  end.

(** [a > b] on numbers; false as soon as one side is [NaN]. *)
Definition gt (a b : number) : bool := PrimFloat.ltb b a.

(** [a >= b] on numbers. *)
Definition ge (a b : number) : bool := PrimFloat.leb b a.

(** [s || d] on strings. *)
Definition or_else (s d : string) : string := if truthy s then s else d.

(** [a === b] on strings. *)
Definition seq (a b : string) : bool := String.eqb a b.

(** JSON documents, as [JSON.stringify] writes them: the keys of an object
    keep their insertion order. *)
#[warnings="-register-all"]
Inductive JSON : Type :=
| JNull
| JBool (b : bool)
| JNum (x : number)
| JStr (s : string)
| JArr (items : list JSON)
| JObj (fields : list (string * JSON)).

(** [JSON.stringify] writes [NaN] and the infinities as [null]. *)
Definition of_number (x : number) : JSON :=
  if PrimFloat.is_nan x || PrimFloat.is_infinity x then JNull else JNum x.

(** The value stored under key [k], the first one from the left. *)
Fixpoint field (k : string) (fields : list (string * JSON)) : option JSON :=
  match fields with
  | [] => None
  | (k', v) :: rest => if seq k' k then Some v else field k rest
  end.

Definition keys (fields : list (string * JSON)) : list string :=
  map fst fields.

Definition has_key (k : string) (fields : list (string * JSON)) : bool :=
  existsb (seq k) (keys fields).

End JS.

(** ** [SalesAutoDeduction.tsx] *)

Module SalesAutoDeduction.

Record SalesDeductionRule : Type := {
  id : string;
  name : string;
  percentage : JS.number;
  active : bool;
  description : string
}.

(** The [newRule] form cell. *)
Record NewRule : Type := {
  new_name : string;
  new_percentage : JS.number;
  new_description : string
}.

(** The component's two state cells. *)
Record State : Type := {
  rules : list SalesDeductionRule;
  newRule : NewRule
}.

Definition initial : State := {|
  rules := [
    {| id := "1"; name := "Daily Sales Deduction"; percentage := 5%float;
       active := true;
       description := "Automatically deduct 5% from daily sales for operational costs" |};
    {| id := "2"; name := "Weekend Sales Deduction"; percentage := 3%float;
       active := false;
       description := "Deduct 3% from weekend sales for additional processing" |} ];
  newRule := {| new_name := ""; new_percentage := 0%float; new_description := "" |}
|}.

(** [{ ...rule, active: !rule.active }] *)
Definition flip (rule : SalesDeductionRule) : SalesDeductionRule :=
  {| id := id rule; name := name rule; percentage := percentage rule;
     active := negb (active rule); description := description rule |}.

(** [prevRules.map(rule => rule.id === id ? {...rule, active: !rule.active} : rule)] *)
Definition toggleRules (i : string) (prevRules : list SalesDeductionRule)
  : list SalesDeductionRule :=
  map (fun rule => if JS.seq (id rule) i then flip rule else rule) prevRules.

Definition handleToggleRule (i : string) (st : State) : State :=
  {| rules := toggleRules i (rules st); newRule := newRule st |}.

(** [handleAddRule]; [now] is the text of [Date.now().toString()] at the
    click. *)
Definition handleAddRule (now : string) (st : State) : State :=
  let nr := newRule st in
  if JS.truthy (new_name nr) && JS.gt (new_percentage nr) 0%float then
    let rule := {| id := now; name := new_name nr;
                   percentage := new_percentage nr; active := false;
                   description := new_description nr |} in
    {| rules := rules st ++ [rule];
       newRule := {| new_name := ""; new_percentage := 0%float;
                     new_description := "" |} |}
  else st.

(** [prevRules.filter(rule => rule.id !== id)] *)
Definition handleDeleteRule (i : string) (st : State) : State :=
  {| rules := List.filter (fun rule => negb (JS.seq (id rule) i)) (rules st);
     newRule := newRule st |}.

(** The figures of the Deduction Summary panel. *)

(** [rules.filter(rule => rule.active).length] *)
Definition activeRules (st : State) : nat :=
  length (List.filter active (rules st)).

(** [rules.filter(rule => rule.active).reduce((sum, rule) => sum + rule.percentage, 0)] *)
Definition totalDeductionRate (st : State) : JS.number :=
  fold_left (fun sum rule => PrimFloat.add sum (percentage rule))
    (List.filter active (rules st)) 0%float.

(** [rules.filter(rule => !rule.active).length] *)
Definition inactiveRules (st : State) : nat :=
  length (List.filter (fun rule => negb (active rule)) (rules st)).

(** Specification of one toggle on one rule: nothing but the flag moves, and
    the flag moves exactly when the id is the one asked for. *)
Definition toggled (i : string) (before after : SalesDeductionRule) : Prop :=
id after = id before /\ name after = name before
/\ percentage after = percentage before
/\ description after = description before
/\ active after = xorb (active before) (JS.seq (id before) i)
/\ (if JS.seq (id before) i then True else after = before).

End SalesAutoDeduction.

(** ** Replies of the server to a [fetch] *)

(** What an [await fetch(...)] followed by [response.json()] can come to:
    an OK response with its parsed body, a response that is not OK with the
    [detail] of its body (the empty string when it has none), or an
    exception (network failure, unparsable body), which lands in the
    handler's [catch]. *)
Inductive Reply (A : Type) : Type :=
| Ok (data : A)
| NotOk (detail : string)
| Thrown.
Arguments Ok {A} data.
Arguments NotOk {A} detail.
Arguments Thrown {A}.

(** A reply that is not a success: a response that is not OK, with its
    [detail], or an exception. *)
Definition failed {A : Type} (cause : option string) : Reply A :=
  match cause with
  | Some detail => NotOk detail
  | None => Thrown
  end.

(** ** The setup wizard ([SetupWizard]) *)

Module SetupWizard.

(** The labels of [steps]. *)
Definition steps : list string :=
  ["Restaurant Profile"; "Menu Items"; "Ingredients"; "Suppliers"; "Initial Stock"].

(** The state cells the navigation reads or writes.  The form cells
    ([restaurantProfile], [menuItems], ...) only feed request bodies and
    are left out; [csvData] is read once, by [handleCsvUpload], and comes
    in there as an argument. *)
Record State : Type := {
  activeStep : Z;
  sessionId : option string;
  loading : bool;
  error : option string;
  success : option string;
  showCsvDialog : bool;
  csvFileType : string;
  validationErrors : list string;
  validationWarnings : list string
}.

Definition initial : State := {|
  activeStep := 0; sessionId := None; loading := false;
  error := None; success := None; showCsvDialog := false; csvFileType := "";
  validationErrors := []; validationWarnings := []
|}.

Definition setActiveStep (f : Z -> Z) (s : State) : State :=
  {| activeStep := f (activeStep s); sessionId := sessionId s;
     loading := loading s; error := error s; success := success s;
     showCsvDialog := showCsvDialog s; csvFileType := csvFileType s;
     validationErrors := validationErrors s;
     validationWarnings := validationWarnings s |}.

Definition setSessionId (v : option string) (s : State) : State :=
  {| activeStep := activeStep s; sessionId := v;
     loading := loading s; error := error s; success := success s;
     showCsvDialog := showCsvDialog s; csvFileType := csvFileType s;
     validationErrors := validationErrors s;
     validationWarnings := validationWarnings s |}.

Definition setLoading (v : bool) (s : State) : State :=
  {| activeStep := activeStep s; sessionId := sessionId s;
     loading := v; error := error s; success := success s;
     showCsvDialog := showCsvDialog s; csvFileType := csvFileType s;
     validationErrors := validationErrors s;
     validationWarnings := validationWarnings s |}.

Definition setError (v : option string) (s : State) : State :=
  {| activeStep := activeStep s; sessionId := sessionId s;
     loading := loading s; error := v; success := success s;
     showCsvDialog := showCsvDialog s; csvFileType := csvFileType s;
     validationErrors := validationErrors s;
     validationWarnings := validationWarnings s |}.

Definition setSuccess (v : option string) (s : State) : State :=
  {| activeStep := activeStep s; sessionId := sessionId s;
     loading := loading s; error := error s; success := v;
     showCsvDialog := showCsvDialog s; csvFileType := csvFileType s;
     validationErrors := validationErrors s;
     validationWarnings := validationWarnings s |}.

Definition setCsvDialog (open : bool) (fileType : string) (s : State) : State :=
  {| activeStep := activeStep s; sessionId := sessionId s;
     loading := loading s; error := error s; success := success s;
     showCsvDialog := open; csvFileType := fileType;
     validationErrors := validationErrors s;
     validationWarnings := validationWarnings s |}.

Definition setValidation (errs warns : list string) (s : State) : State :=
  {| activeStep := activeStep s; sessionId := sessionId s;
     loading := loading s; error := error s; success := success s;
     showCsvDialog := showCsvDialog s; csvFileType := csvFileType s;
     validationErrors := errs; validationWarnings := warns |}.

(** The requests that are awaited; [SaveStep] keeps the [activeStep] its
    closure saw, [DownloadTemplate] the file type it was called with. *)
Inductive Pending : Type :=
| CreateSession
| SaveStep (step : Z)
| CompleteSetup
| CsvUpload
| DownloadTemplate (fileType : string).

(** The requests whose handler sets [loading]: all but [downloadTemplate]. *)
Definition sets_loading (p : Pending) : bool :=
  match p with
  | DownloadTemplate _ => false
  | _ => true
  end.

#[export] Instance Pending_eq_dec : EqDecision Pending.
Proof. solve_decision. Defined.

(** Parsed bodies of the OK replies. *)
Record StepResult : Type := {
  is_valid : bool; errors : list string; warnings : list string
}.
Record CsvResult : Type := {
  csv_success : bool; records_processed : Z; csv_errors : list string
}.

(** The component together with what lives outside its state cells: its
    requests in flight; the steps that are no longer active but whose
    [StepContent] is still mounted, because the [Collapse] around it
    unmounts it only when its exit transition is over; and the files the
    browser was made to download (name, content). *)
Record World : Type := {
  ui : State;
  inflight : list Pending;
  leaving : list Z;
  downloads : list (string * string)
}.

Definition on_ui (f : State -> State) (w : World) : World :=
  {| ui := f (ui w); inflight := inflight w;
     leaving := leaving w; downloads := downloads w |}.

Definition send (p : Pending) (w : World) : World :=
  {| ui := setLoading true (ui w); inflight := inflight w ++ [p];
     leaving := leaving w; downloads := downloads w |}.

(** Take one copy of [p] out of the requests in flight. *)
Fixpoint remove1 (p : Pending) (l : list Pending) : list Pending :=
  match l with
  | [] => []
  | q :: rest => if decide (q = p) then rest else q :: remove1 p rest
  end.

Definition receive (p : Pending) (w : World) : World :=
  {| ui := ui w; inflight := remove1 p (inflight w);
     leaving := leaving w; downloads := downloads w |}.

(** [!sessionId] is false: a session id is there and is not ['']. *)
Definition has_session (s : State) : bool :=
  match sessionId s with
  | Some i => JS.truthy i
  | None => false
  end.

(** [createSession], run once by the mount effect. *)
Definition createSession (w : World) : World := send CreateSession w.

Definition createSession_reply (r : Reply string) (s : State) : State :=
  setLoading false
    match r with
    | Ok session_id =>
        setSuccess (Some "Setup session created successfully")
          (setSessionId (Some session_id) s)
    | NotOk detail =>
        setError (Some (JS.or_else detail "Failed to create session")) s
    | Thrown => setError (Some "Error creating setup session") s
    end.

(** The [switch (activeStep)] of [saveCurrentStep] has cases 0 to 4. *)
Definition in_switch (a : Z) : bool := (0 <=? a)%Z && (a <=? 4)%Z.

(** [saveCurrentStep] after its [fetch]; a response that is not OK is
    passed over in silence. *)
Definition saveCurrentStep_reply (step : Z) (r : Reply StepResult) (s : State)
  : State :=
  setLoading false
    match r with
    | Ok data =>
        setValidation (errors data) (warnings data)
          (if is_valid data
           then setSuccess
                  (Some ("Step " +:+ pretty (step + 1)%Z +:+ " saved successfully")) s
           else setError (Some "Validation failed") s)
    | NotOk _ => s
    | Thrown => setError (Some "Error saving step") s
    end.

Definition completeSetup (w : World) : World :=
  if has_session (ui w) then send CompleteSetup w else w.

Definition completeSetup_reply (r : Reply unit) (s : State) : State :=
  setLoading false
    match r with
    | Ok _ => setSuccess (Some "Restaurant setup completed successfully!") s
    | NotOk detail =>
        setError (Some (JS.or_else detail "Failed to complete setup")) s
    | Thrown => setError (Some "Error completing setup") s
    end.

(** [handleNext] up to its first [await] that really waits.  On the last
    step it completes the setup and never touches [activeStep].  Elsewhere
    it saves the step and then increments: at once when [saveCurrentStep]
    returns without a request (no session, or no case of the switch), and
    on the reply otherwise (see [handleNext_resume]). *)
Definition handleNext (w : World) : World :=
  let a := activeStep (ui w) in
  if (a =? Z.of_nat (length steps) - 1)%Z then completeSetup w
  else if negb (has_session (ui w)) then
    on_ui (setActiveStep (fun prevActiveStep => prevActiveStep + 1)%Z) w
  else if in_switch a then send (SaveStep a) w
  else
    on_ui (setActiveStep (fun prevActiveStep => prevActiveStep + 1)%Z)
      (on_ui (setLoading false) (on_ui (setLoading true) w)).

(** The rest of [handleNext], once the awaited [saveCurrentStep] is over:
    the increment comes whatever the reply was. *)
Definition handleNext_resume (step : Z) (r : Reply StepResult) (w : World)
  : World :=
  on_ui (setActiveStep (fun prevActiveStep => prevActiveStep + 1)%Z)
    (on_ui (saveCurrentStep_reply step r) (receive (SaveStep step) w)).

Definition handleBack (w : World) : World :=
  on_ui (setActiveStep (fun prevActiveStep => prevActiveStep - 1)%Z) w.

Definition handleReset (w : World) : World :=
  on_ui (setActiveStep (fun _ => 0%Z)) w.

(** [handleCsvUpload]; [has_text] is [csvData.trim()] being truthy. *)
Definition handleCsvUpload (has_text : bool) (w : World) : World :=
  if negb (has_session (ui w)) || negb has_text then w else send CsvUpload w.

Definition handleCsvUpload_reply (r : Reply CsvResult) (s : State) : State :=
  setLoading false
    match r with
    | Ok data =>
        if csv_success data
        then setCsvDialog false (csvFileType s)
               (setSuccess
                  (Some ("CSV uploaded successfully: "
                         +:+ pretty (records_processed data)
                         +:+ " records processed")) s)
        else setError
               (Some ("CSV upload failed: " +:+ String.concat ", " (csv_errors data))) s
    | NotOk detail => setError (Some (JS.or_else detail "Failed to upload CSV")) s
    | Thrown => setError (Some "Error uploading CSV") s
    end.

(** [downloadTemplate], up to its [fetch]: no session check, and [loading]
    is left alone. *)
Definition downloadTemplate (fileType : string) (w : World) : World :=
  {| ui := ui w; inflight := inflight w ++ [DownloadTemplate fileType];
     leaving := leaving w; downloads := downloads w |}.

(** [downloadTemplate] from the reply on; [data] is [data.csv_content].  An
    OK reply makes the browser download [${fileType}_template.csv]; a
    response that is not OK is passed over in silence. *)
Definition downloadTemplate_reply (fileType : string) (r : Reply string) (w : World)
  : World :=
  match r with
  | Ok data =>
      {| ui := ui w; inflight := inflight w; leaving := leaving w;
         downloads := downloads w ++ [(fileType +:+ "_template.csv", data)] |}
  | NotOk _ => w
  | Thrown => on_ui (setError (Some "Error downloading template")) w
  end.

(** What can happen to the mounted component: a click, a reply, or the end
    of the exit transition of a step that was left. *)
Inductive Event : Type :=
| ClickNext
| ClickBack (index : Z)
| ClickReset
| OpenCsv (fileType : string)
| CloseCsv
| ClickUpload (has_text : bool)
| CloseSuccess
| CloseError
| ClickDownload (fileType : string)
| Collapsed (index : Z)
| GotSession (r : Reply string)
| GotSave (step : Z) (r : Reply StepResult)
| GotComplete (r : Reply unit)
| GotCsv (r : Reply CsvResult)
| GotTemplate (fileType : string) (r : Reply string).

(** [index] is the index of one of the [steps]. *)
Definition is_step (index : Z) : bool :=
  (0 <=? index)%Z && (index <? Z.of_nat (length steps))%Z.

(** The [StepContent] of step [index] is mounted: the step is the active
    one, or it was left and is still collapsing. *)
Definition on_screen (index : Z) (w : World) : bool :=
  (is_step index && (index =? activeStep (ui w))%Z)
  || bool_decide (index ∈ leaving w).

(** The step whose content has the Download Template and Upload CSV buttons
    of a file type ([renderMenuItems], [renderIngredients],
    [renderSuppliers]). *)
Definition step_of_fileType (fileType : string) : option Z :=
  if JS.seq fileType "menu_items" then Some 1%Z
  else if JS.seq fileType "ingredients" then Some 2%Z
  else if JS.seq fileType "suppliers" then Some 3%Z
  else None.

Definition fileType_on_screen (fileType : string) (w : World) : bool :=
  match step_of_fileType fileType with
  | Some index => on_screen index w
  | None => false
  end.

(** Some step's content is mounted, and with it a Continue button. *)
Definition step_on_screen (w : World) : bool :=
  is_step (activeStep (ui w))
  || match leaving w with [] => false | _ :: _ => true end.

(** The guards of the JSX.  Every step renders its own Continue and Back
    buttons inside its [StepContent], so they take a click whenever that
    content is mounted, also while the step is collapsing after it was
    left.  Continue has [disabled={loading}], the same for every step; Back
    has [disabled={index === 0}] on the step's own [index], not on the
    active step.  Upload has [disabled={loading}].  A reply needs its
    request in flight.  The other controls are taken to be always at hand.
    (The spinner that replaces the page while [loading && !sessionId] is
    not a guard here: that state is only met between mounting and the reply
    to [createSession], where no control of the page changes anything.) *)
Definition enabled (e : Event) (w : World) : bool :=
  match e with
  | ClickNext => step_on_screen w && negb (loading (ui w))
  | ClickBack index => on_screen index w && negb (index =? 0)%Z
  | OpenCsv fileType => fileType_on_screen fileType w
  | ClickUpload _ => showCsvDialog (ui w) && negb (loading (ui w))
  | ClickDownload fileType => fileType_on_screen fileType w
  | Collapsed index => bool_decide (index ∈ leaving w)
  | GotSession _ => bool_decide (CreateSession ∈ inflight w)
  | GotSave step _ => bool_decide (SaveStep step ∈ inflight w)
  | GotComplete _ => bool_decide (CompleteSetup ∈ inflight w)
  | GotCsv _ => bool_decide (CsvUpload ∈ inflight w)
  | GotTemplate fileType _ => bool_decide (DownloadTemplate fileType ∈ inflight w)
  | _ => true
  end.

Definition fire (e : Event) (w : World) : World :=
  match e with
  | ClickNext => handleNext w
  | ClickBack _ => handleBack w
  | ClickReset => handleReset w
  | OpenCsv fileType => on_ui (setCsvDialog true fileType) w
  | CloseCsv => on_ui (fun s => setCsvDialog false (csvFileType s) s) w
  | ClickUpload has_text => handleCsvUpload has_text w
  | CloseSuccess => on_ui (setSuccess None) w
  | CloseError => on_ui (setError None) w
  | ClickDownload fileType => downloadTemplate fileType w
  | Collapsed index =>
      {| ui := ui w; inflight := inflight w;
         leaving := List.filter (fun i => negb (i =? index)%Z) (leaving w);
         downloads := downloads w |}
  | GotSession r => on_ui (createSession_reply r) (receive CreateSession w)
  | GotSave step r => handleNext_resume step r w
  | GotComplete r => on_ui (completeSetup_reply r) (receive CompleteSetup w)
  | GotCsv r => on_ui (handleCsvUpload_reply r) (receive CsvUpload w)
  | GotTemplate fileType r =>
      downloadTemplate_reply fileType r (receive (DownloadTemplate fileType) w)
  end.

(** What the [Stepper] does when the active step has changed: the step
    that was active starts to collapse and stays mounted meanwhile; the
    step that is active now is no longer a step that was left. *)
Definition settle (before after : World) : World :=
  let a := activeStep (ui before) in
  let b := activeStep (ui after) in
  if (a =? b)%Z then after
  else {| ui := ui after; inflight := inflight after;
          leaving := (if is_step a then [a] else [])
                     ++ List.filter (fun i => negb (i =? b)%Z) (leaving after);
          downloads := downloads after |}.

(** A click on a disabled control does nothing. *)
Definition step (w : World) (e : Event) : World :=
  if enabled e w then settle w (fire e w) else w.

Definition run (events : list Event) (w : World) : World :=
  fold_left step events w.

(** The component right after mounting: [useEffect] has called
    [createSession]. *)
Definition mounted : World :=
  createSession {| ui := initial; inflight := []; leaving := []; downloads := [] |}.

(** [loading] is set exactly while a request that sets it is awaited, and
    one such request is awaited at most. *)
Definition wizard_busy (w : World) : Prop :=
  length (List.filter sets_loading (inflight w))
  = if loading (ui w) then 1%nat else 0%nat.

(** What every reachable state of the wizard satisfies on the upper side:
    the step index is at most the last step's; [wizard_busy]; while a save
    is awaited the index is not the last one. *)
Definition wizard_inv (w : World) : Prop :=
  (activeStep (ui w) <= 4)%Z
  /\ wizard_busy w
  /\ (forall sv, SaveStep sv ∈ inflight w -> (activeStep (ui w) <= 3)%Z).

(** No session, and no request but template downloads awaited. *)
Definition wizard_offline (w : World) : Prop :=
  has_session (ui w) = false /\ List.filter sets_loading (inflight w) = [].

(** Every Back click of [events], played from [w], lands on the Back button
    of the step that is active at that moment. *)
Fixpoint backs_on_active_step (events : list Event) (w : World) : bool :=
  match events with
  | [] => true
  | e :: rest =>
      match e with
      | ClickBack index => (index =? activeStep (ui w))%Z
      | _ => true
      end
      && backs_on_active_step rest (step w e)
  end.

(** The page is replaced by the spinner: [loading && !sessionId]. *)
Definition spinner (s : State) : bool := loading s && negb (has_session s).

(** Past the reply to [createSession]: it is no longer awaited, and
    [loading] is only set with a session. *)
Definition past_spinner (w : World) : Prop :=
  (CreateSession ∉ inflight w) /\ spinner (ui w) = false.

End SetupWizard.

(** ** [SupplierAPIIntegrations.tsx] *)

Module SupplierAPIIntegrations.

Record Supplier : Type := {
  id : string;
  name : string;
  description : string;
  integration_type : string;
  features : list string;
  categories : list string;
  minimum_order : JS.number;
  delivery_lead_time : JS.number;
  required_config : list string
}.

Record Product : Type := {
  product_id : string;
  product_name : string;
  product_description : string;
  price : JS.number;
  product_unit : string;
  category : string;
  in_stock : bool;
  min_order_qty : JS.number;
  lead_time_days : JS.number;
  last_updated : string
}.

Record OrderItem : Type := {
  item_product_id : string;
  item_name : string;
  quantity : JS.number;
  unit : string;
  unit_price : JS.number;
  item_notes : string
}.

Record Order : Type := {
  order_id : string;
  order_supplier_id : string;
  status : string;
  total_amount : JS.number;
  order_delivery_date : string;
  created_at : string;
  type : string
}.

(** The [configData] cell. *)
Record ConfigData : Type := {
  api_key : string;
  location_id : string;
  account_number : string;
  restaurant_id : string
}.

(** [orderType]: ['api' | 'pdf' | 'email']. *)
Inductive OrderType : Type := api | pdf | email.

(** The [orderData] cell. *)
Record OrderData : Type := {
  supplier_id : string;
  supplier_name : string;
  supplier_email : string;
  items : list OrderItem;
  delivery_address : string;
  delivery_date : string;
  contact_person : string;
  contact_phone : string;
  contact_email : string;
  notes : string;
  urgent : bool
}.

(** The component's state cells. *)
Record State : Type := {
  suppliers : list Supplier;
  selectedSupplier : string;
  products : list Product;
  orders : list Order;
  loading : bool;
  error : option string;
  success : option string;
  showConfigDialog : bool;
  configSupplier : string;
  configData : ConfigData;
  showOrderDialog : bool;
  orderType : OrderType;
  orderData : OrderData;
  activeTab : nat
}.

Definition emptyConfigData : ConfigData :=
  {| api_key := ""; location_id := ""; account_number := ""; restaurant_id := "" |}.

Definition emptyOrderData : OrderData :=
  {| supplier_id := ""; supplier_name := ""; supplier_email := ""; items := [];
     delivery_address := ""; delivery_date := ""; contact_person := "";
     contact_phone := ""; contact_email := ""; notes := ""; urgent := false |}.

Definition initial : State := {|
  suppliers := []; selectedSupplier := ""; products := []; orders := [];
  loading := false; error := None; success := None;
  showConfigDialog := false; configSupplier := ""; configData := emptyConfigData;
  showOrderDialog := false; orderType := api; orderData := emptyOrderData;
  activeTab := 0
|}.

(** *** The setters of the cells *)

Definition setSuppliers (v : list Supplier) (s : State) : State :=
  {| suppliers := v; selectedSupplier := selectedSupplier s; products := products s;
     orders := orders s; loading := loading s; error := error s; success := success s;
     showConfigDialog := showConfigDialog s; configSupplier := configSupplier s;
     configData := configData s; showOrderDialog := showOrderDialog s;
     orderType := orderType s; orderData := orderData s; activeTab := activeTab s |}.

Definition setSelectedSupplier (v : string) (s : State) : State :=
  {| suppliers := suppliers s; selectedSupplier := v; products := products s;
     orders := orders s; loading := loading s; error := error s; success := success s;
     showConfigDialog := showConfigDialog s; configSupplier := configSupplier s;
     configData := configData s; showOrderDialog := showOrderDialog s;
     orderType := orderType s; orderData := orderData s; activeTab := activeTab s |}.

Definition setProducts (v : list Product) (s : State) : State :=
  {| suppliers := suppliers s; selectedSupplier := selectedSupplier s; products := v;
     orders := orders s; loading := loading s; error := error s; success := success s;
     showConfigDialog := showConfigDialog s; configSupplier := configSupplier s;
     configData := configData s; showOrderDialog := showOrderDialog s;
     orderType := orderType s; orderData := orderData s; activeTab := activeTab s |}.

Definition setOrders (v : list Order) (s : State) : State :=
  {| suppliers := suppliers s; selectedSupplier := selectedSupplier s; products := products s;
     orders := v; loading := loading s; error := error s; success := success s;
     showConfigDialog := showConfigDialog s; configSupplier := configSupplier s;
     configData := configData s; showOrderDialog := showOrderDialog s;
     orderType := orderType s; orderData := orderData s; activeTab := activeTab s |}.

Definition setLoading (v : bool) (s : State) : State :=
  {| suppliers := suppliers s; selectedSupplier := selectedSupplier s; products := products s;
     orders := orders s; loading := v; error := error s; success := success s;
     showConfigDialog := showConfigDialog s; configSupplier := configSupplier s;
     configData := configData s; showOrderDialog := showOrderDialog s;
     orderType := orderType s; orderData := orderData s; activeTab := activeTab s |}.

Definition setError (v : option string) (s : State) : State :=
  {| suppliers := suppliers s; selectedSupplier := selectedSupplier s; products := products s;
     orders := orders s; loading := loading s; error := v; success := success s;
     showConfigDialog := showConfigDialog s; configSupplier := configSupplier s;
     configData := configData s; showOrderDialog := showOrderDialog s;
     orderType := orderType s; orderData := orderData s; activeTab := activeTab s |}.

Definition setSuccess (v : option string) (s : State) : State :=
  {| suppliers := suppliers s; selectedSupplier := selectedSupplier s; products := products s;
     orders := orders s; loading := loading s; error := error s; success := v;
     showConfigDialog := showConfigDialog s; configSupplier := configSupplier s;
     configData := configData s; showOrderDialog := showOrderDialog s;
     orderType := orderType s; orderData := orderData s; activeTab := activeTab s |}.

Definition setShowConfigDialog (v : bool) (s : State) : State :=
  {| suppliers := suppliers s; selectedSupplier := selectedSupplier s; products := products s;
     orders := orders s; loading := loading s; error := error s; success := success s;
     showConfigDialog := v; configSupplier := configSupplier s;
     configData := configData s; showOrderDialog := showOrderDialog s;
     orderType := orderType s; orderData := orderData s; activeTab := activeTab s |}.

Definition setConfigSupplier (v : string) (s : State) : State :=
  {| suppliers := suppliers s; selectedSupplier := selectedSupplier s; products := products s;
     orders := orders s; loading := loading s; error := error s; success := success s;
     showConfigDialog := showConfigDialog s; configSupplier := v;
     configData := configData s; showOrderDialog := showOrderDialog s;
     orderType := orderType s; orderData := orderData s; activeTab := activeTab s |}.

Definition setConfigData (v : ConfigData) (s : State) : State :=
  {| suppliers := suppliers s; selectedSupplier := selectedSupplier s; products := products s;
     orders := orders s; loading := loading s; error := error s; success := success s;
     showConfigDialog := showConfigDialog s; configSupplier := configSupplier s;
     configData := v; showOrderDialog := showOrderDialog s;
     orderType := orderType s; orderData := orderData s; activeTab := activeTab s |}.

Definition setShowOrderDialog (v : bool) (s : State) : State :=
  {| suppliers := suppliers s; selectedSupplier := selectedSupplier s; products := products s;
     orders := orders s; loading := loading s; error := error s; success := success s;
     showConfigDialog := showConfigDialog s; configSupplier := configSupplier s;
     configData := configData s; showOrderDialog := v;
     orderType := orderType s; orderData := orderData s; activeTab := activeTab s |}.

Definition setOrderType (v : OrderType) (s : State) : State :=
  {| suppliers := suppliers s; selectedSupplier := selectedSupplier s; products := products s;
     orders := orders s; loading := loading s; error := error s; success := success s;
     showConfigDialog := showConfigDialog s; configSupplier := configSupplier s;
     configData := configData s; showOrderDialog := showOrderDialog s;
     orderType := v; orderData := orderData s; activeTab := activeTab s |}.

Definition setOrderData (f : OrderData -> OrderData) (s : State) : State :=
  {| suppliers := suppliers s; selectedSupplier := selectedSupplier s; products := products s;
     orders := orders s; loading := loading s; error := error s; success := success s;
     showConfigDialog := showConfigDialog s; configSupplier := configSupplier s;
     configData := configData s; showOrderDialog := showOrderDialog s;
     orderType := orderType s; orderData := f (orderData s); activeTab := activeTab s |}.

Definition setActiveTab (v : nat) (s : State) : State :=
  {| suppliers := suppliers s; selectedSupplier := selectedSupplier s; products := products s;
     orders := orders s; loading := loading s; error := error s; success := success s;
     showConfigDialog := showConfigDialog s; configSupplier := configSupplier s;
     configData := configData s; showOrderDialog := showOrderDialog s;
     orderType := orderType s; orderData := orderData s; activeTab := v |}.

(** *** Edits of the form cells *)

(** The text fields of [orderData] that a control of the order dialog
    writes, as [{ ...orderData, field: value }]. *)
Inductive OrderField : Type :=
| f_supplier_id | f_supplier_name | f_supplier_email
| f_delivery_address | f_delivery_date
| f_contact_person | f_contact_phone | f_contact_email | f_notes.

#[export] Instance OrderField_eq_dec : EqDecision OrderField.
Proof. solve_decision. Defined.

Definition with_field (k : OrderField) (v : string) (od : OrderData) : OrderData :=
  let pick k' old := if decide (k = k') then v else old in
  {| supplier_id := pick f_supplier_id (supplier_id od);
     supplier_name := pick f_supplier_name (supplier_name od);
     supplier_email := pick f_supplier_email (supplier_email od);
     items := items od;
     delivery_address := pick f_delivery_address (delivery_address od);
     delivery_date := pick f_delivery_date (delivery_date od);
     contact_person := pick f_contact_person (contact_person od);
     contact_phone := pick f_contact_phone (contact_phone od);
     contact_email := pick f_contact_email (contact_email od);
     notes := pick f_notes (notes od);
     urgent := urgent od |}.

Definition with_items (f : list OrderItem -> list OrderItem) (od : OrderData)
  : OrderData :=
  {| supplier_id := supplier_id od; supplier_name := supplier_name od;
     supplier_email := supplier_email od; items := f (items od);
     delivery_address := delivery_address od; delivery_date := delivery_date od;
     contact_person := contact_person od; contact_phone := contact_phone od;
     contact_email := contact_email od; notes := notes od; urgent := urgent od |}.

(** The fields of [configData]. *)
Inductive ConfigField : Type :=
| f_api_key | f_location_id | f_account_number | f_restaurant_id.

#[export] Instance ConfigField_eq_dec : EqDecision ConfigField.
Proof. solve_decision. Defined.

Definition with_config (k : ConfigField) (v : string) (cd : ConfigData) : ConfigData :=
  let pick k' old := if decide (k = k') then v else old in
  {| api_key := pick f_api_key (api_key cd);
     location_id := pick f_location_id (location_id cd);
     account_number := pick f_account_number (account_number cd);
     restaurant_id := pick f_restaurant_id (restaurant_id cd) |}.

(** [resetConfigData] *)
Definition resetConfigData (s : State) : State :=
  setConfigSupplier "" (setConfigData emptyConfigData s).

(** [resetOrderData] *)
Definition resetOrderData (s : State) : State :=
  setOrderData (fun _ => emptyOrderData) s.

(** [addOrderItem] *)
Definition addOrderItem (s : State) : State :=
  setOrderData
    (with_items (fun prev =>
       prev ++ [ {| item_product_id := ""; item_name := ""; quantity := 1%float;
                    unit := "kg"; unit_price := 0%float; item_notes := "" |} ]))
    s.

(** The four writes the item rows make: [{ ...item, [field]: value }] with
    [field] one of ['name'], ['quantity'] (from [parseInt]), ['unit'],
    ['unit_price'] (from [parseFloat]). *)
Inductive ItemChange : Type :=
| change_name (value : string)
| change_quantity (value : JS.number)
| change_unit (value : string)
| change_unit_price (value : JS.number).

Definition changed (c : ItemChange) (item : OrderItem) : OrderItem :=
  match c with
  | change_name v =>
      {| item_product_id := item_product_id item; item_name := v;
         quantity := quantity item; unit := unit item;
         unit_price := unit_price item; item_notes := item_notes item |}
  | change_quantity v =>
      {| item_product_id := item_product_id item; item_name := item_name item;
         quantity := v; unit := unit item;
         unit_price := unit_price item; item_notes := item_notes item |}
  | change_unit v =>
      {| item_product_id := item_product_id item; item_name := item_name item;
         quantity := quantity item; unit := v;
         unit_price := unit_price item; item_notes := item_notes item |}
  | change_unit_price v =>
      {| item_product_id := item_product_id item; item_name := item_name item;
         quantity := quantity item; unit := unit item;
         unit_price := v; item_notes := item_notes item |}
  end.

(** [updateOrderItem] *)
Definition updateOrderItem (index : nat) (c : ItemChange) (s : State) : State :=
  setOrderData
    (with_items (imap (fun i item => if (i =? index)%nat then changed c item else item)))
    s.

(** [l.filter((_, i) => keep(i))], counting from [i]. *)
Fixpoint filter_index {A : Type} (keep : nat -> bool) (i : nat) (l : list A) : list A :=
  match l with
  | [] => []
  | x :: rest =>
      if keep i then x :: filter_index keep (S i) rest
      else filter_index keep (S i) rest
  end.

(** [removeOrderItem] *)
Definition removeOrderItem (index : nat) (s : State) : State :=
  setOrderData
    (with_items (filter_index (fun i => negb (i =? index)%nat) 0))
    s.

(** *** Requests *)

Inductive Method : Type := GET | POST.

(** The URL argument of a [fetch].  [path] is what follows
    [${API_BASE_URL}/api/supplier-api-integrations] in the template literal
    of the source.  The literal is either passed to [fetch] as it is, or
    passed to [new URL(...)] first and read back with [toString()]; what
    string that gives is the URL parser's business (it percent-encodes and
    resolves dot segments), so it is kept apart and not computed here. *)
Inductive Address : Type :=
| Template (path : string)
| ThroughURL (path : string).

Coercion Template : string >-> Address.

(** The address is the template literal with this [path], passed as it is. *)
Definition is_template (path : string) (a : Address) : bool :=
  match a with
  | Template p => JS.seq p path
  | ThroughURL _ => false
  end.

(** A [fetch]; [query] holds what [url.searchParams.append] added. *)
Record Request : Type := {
  method : Method;
  endpoint : Address;
  query : list (string * string);
  body : option JS.JSON
}.

Definition item_json (item : OrderItem) : JS.JSON :=
  JS.JObj [ ("product_id", JS.JStr (item_product_id item));
            ("name", JS.JStr (item_name item));
            ("quantity", JS.of_number (quantity item));
            ("unit", JS.JStr (unit item));
            ("unit_price", JS.of_number (unit_price item));
            ("notes", JS.JStr (item_notes item)) ].

(** The [endpoint] that [placeOrder] picks. *)
Definition order_endpoint (t : OrderType) : string :=
  match t with
  | api => "/order"
  | pdf => "/order-sheet/pdf"
  | email => "/order-sheet/email"
  end.

(** The [requestData] that [placeOrder] builds, one object literal per
    branch as in the source. *)
Definition requestData (t : OrderType) (orderData : OrderData)
  : list (string * JS.JSON) :=
  match t with
  | api =>
      [ ("supplier_id", JS.JStr (supplier_id orderData));
        ("items", JS.JArr (map item_json (items orderData)));
        ("delivery_address", JS.JStr (delivery_address orderData));
        ("delivery_date", JS.JStr (delivery_date orderData));
        ("contact_person", JS.JStr (contact_person orderData));
        ("contact_phone", JS.JStr (contact_phone orderData));
        ("contact_email", JS.JStr (contact_email orderData));
        ("notes", JS.JStr (notes orderData));
        ("urgent", JS.JBool (urgent orderData)) ]
  | pdf =>
      [ ("supplier_name", JS.JStr (supplier_name orderData));
        ("items", JS.JArr (map item_json (items orderData)));
        ("delivery_address", JS.JStr (delivery_address orderData));
        ("delivery_date", JS.JStr (delivery_date orderData));
        ("contact_person", JS.JStr (contact_person orderData));
        ("contact_phone", JS.JStr (contact_phone orderData));
        ("contact_email", JS.JStr (contact_email orderData));
        ("notes", JS.JStr (notes orderData));
        ("urgent", JS.JBool (urgent orderData)) ]
  | email =>
      [ ("supplier_name", JS.JStr (supplier_name orderData));
        ("supplier_email", JS.JStr (supplier_email orderData));
        ("items", JS.JArr (map item_json (items orderData)));
        ("delivery_address", JS.JStr (delivery_address orderData));
        ("delivery_date", JS.JStr (delivery_date orderData));
        ("contact_person", JS.JStr (contact_person orderData));
        ("contact_phone", JS.JStr (contact_phone orderData));
        ("contact_email", JS.JStr (contact_email orderData));
        ("notes", JS.JStr (notes orderData));
        ("urgent", JS.JBool (urgent orderData)) ]
  end.

(** The [fetch] of [placeOrder]. *)
Definition placeOrder_request (s : State) : Request :=
  {| method := POST; endpoint := order_endpoint (orderType s); query := [];
     body := Some (JS.JObj (requestData (orderType s) (orderData s))) |}.

(** The [fetch] of [configureSupplier]: [{ supplier_id: configSupplier, ...configData }]. *)
Definition configure_request (s : State) : Request :=
  {| method := POST; endpoint := "/configure"; query := [];
     body := Some (JS.JObj
               [ ("supplier_id", JS.JStr (configSupplier s));
                 ("api_key", JS.JStr (api_key (configData s)));
                 ("location_id", JS.JStr (location_id (configData s)));
                 ("account_number", JS.JStr (account_number (configData s)));
                 ("restaurant_id", JS.JStr (restaurant_id (configData s))) ]) |}.

(** The [fetch] of [getProducts]: the URL goes through [new URL(...)], and
    [category] is appended to its search parameters when it is truthy.  (An
    exception of [new URL] lands in the same [catch] as one of the [fetch];
    the reply [Thrown] stands for both.) *)
Definition getProducts_request (supplierId : string) (category : option string)
  : Request :=
  {| method := GET; endpoint := ThroughURL ("/products/" +:+ supplierId);
     query := match category with
              | Some c => if JS.truthy c then [("category", c)] else []
              | None => []
              end;
     body := None |}.

Definition testConnection_request (supplierId : string) : Request :=
  {| method := GET; endpoint := "/test-connection/" +:+ supplierId;
     query := []; body := None |}.

Definition loadSuppliers_request : Request :=
  {| method := GET; endpoint := "/suppliers"; query := []; body := None |}.

Definition loadOrders_request : Request :=
  {| method := GET; endpoint := "/orders"; query := []; body := None |}.

(** *** The component and its requests in flight *)

(** An awaited [fetch], with what its closure holds on to. *)
Inductive Call : Type :=
| LoadSuppliers
| LoadOrders
| ConfigureSupplier
| GetProducts (supplierId : string)
| PlaceOrder
| TestConnection (supplierId : string).

#[export] Instance Call_eq_dec : EqDecision Call.
Proof. solve_decision. Defined.

Record World : Type := {
  ui : State;
  inflight : list Call;
  sent : list Request
}.

Definition on_ui (f : State -> State) (w : World) : World :=
  {| ui := f (ui w); inflight := inflight w; sent := sent w |}.

Definition fetch (c : Call) (r : Request) (w : World) : World :=
  {| ui := ui w; inflight := inflight w ++ [c]; sent := sent w ++ [r] |}.

Fixpoint remove1 (c : Call) (l : list Call) : list Call :=
  match l with
  | [] => []
  | d :: rest => if decide (d = c) then rest else d :: remove1 c rest
  end.

Definition receive (c : Call) (w : World) : World :=
  {| ui := ui w; inflight := remove1 c (inflight w); sent := sent w |}.

(** *** The handlers, up to their [fetch] *)

Definition loadSuppliers (w : World) : World :=
  fetch LoadSuppliers loadSuppliers_request (on_ui (setLoading true) w).

Definition loadOrders (w : World) : World :=
  fetch LoadOrders loadOrders_request w.

Definition configureSupplier (w : World) : World :=
  fetch ConfigureSupplier (configure_request (ui w)) (on_ui (setLoading true) w).

Definition getProducts (supplierId : string) (category : option string) (w : World)
  : World :=
  fetch (GetProducts supplierId) (getProducts_request supplierId category)
    (on_ui (setLoading true) w).

Definition placeOrder (w : World) : World :=
  fetch PlaceOrder (placeOrder_request (ui w)) (on_ui (setLoading true) w).

Definition testConnection (supplierId : string) (w : World) : World :=
  fetch (TestConnection supplierId) (testConnection_request supplierId)
    (on_ui (setLoading true) w).

(** *** The handlers, from the reply on *)

(** [data] is [Object.values(data.suppliers)]. *)
Definition loadSuppliers_reply (r : Reply (list Supplier)) (s : State) : State :=
  setLoading false
    match r with
    | Ok data => setSuppliers data s
    | NotOk _ => setError (Some "Failed to load suppliers") s
    | Thrown => setError (Some "Error loading suppliers") s
    end.

(** [data] is [data.orders]. *)
Definition loadOrders_reply (r : Reply (list Order)) (s : State) : State :=
  match r with
  | Ok data => setOrders data s
  | NotOk _ => s
  | Thrown => s
  end.

(** [data] is [data.supplier_id]. *)
Definition configureSupplier_reply (r : Reply string) (s : State) : State :=
  setLoading false
    match r with
    | Ok data =>
        resetConfigData
          (setShowConfigDialog false
             (setSuccess (Some ("Integration configured successfully for " +:+ data)) s))
    | NotOk detail =>
        setError (Some (JS.or_else detail "Failed to configure integration")) s
    | Thrown => setError (Some "Error configuring integration") s
    end.

(** [data] is [data.products]. *)
Definition getProducts_reply (supplierId : string) (r : Reply (list Product))
    (s : State) : State :=
  setLoading false
    match r with
    | Ok data => setSelectedSupplier supplierId (setProducts data s)
    | NotOk _ => setError (Some "Failed to load products") s
    | Thrown => setError (Some "Error loading products") s
    end.

(** [data] is [data.order_id]; an OK reply ends with [loadOrders()]. *)
Definition placeOrder_reply (r : Reply string) (w : World) : World :=
  on_ui (setLoading false)
    match r with
    | Ok data =>
        loadOrders
          (on_ui (fun s =>
                    resetOrderData
                      (setShowOrderDialog false
                         (setSuccess
                            (Some ("Order placed successfully! Order ID: " +:+ data)) s)))
             w)
    | NotOk detail =>
        on_ui (setError (Some (JS.or_else detail "Failed to place order"))) w
    | Thrown => on_ui (setError (Some "Error placing order")) w
    end.

Definition testConnection_reply (supplierId : string) (r : Reply Datatypes.unit) (s : State)
  : State :=
  setLoading false
    match r with
    | Ok _ => setSuccess (Some ("Connection test successful for " +:+ supplierId)) s
    | NotOk detail => setError (Some (JS.or_else detail "Connection test failed")) s
    | Thrown => setError (Some "Error testing connection") s
    end.

(** *** Clicks and replies *)

Inductive Event : Type :=
(* the page *)
| SelectTab (newValue : nat)
| CloseSuccess
| CloseError
(* a supplier card of the first tab *)
| CardConfigure (supplierId : string)
| CardTest (supplierId : string)
| CardViewProducts (supplierId : string)
(* the Products tab *)
| ProductsPlaceOrder
(* the Configuration tab and the configuration dialog *)
| PickConfigSupplier (supplierId : string)
| TypeConfig (k : ConfigField) (value : string)
| TabConfigure
| DialogConfigure
| CloseConfigDialog
(* the order dialog *)
| PickOrderType (t : OrderType)
| TypeOrder (k : OrderField) (value : string)
| AddItem
| EditItem (index : nat) (c : ItemChange)
| RemoveItem (index : nat)
| DialogPlaceOrder
| CloseOrderDialog
(* replies *)
| GotSuppliers (r : Reply (list Supplier))
| GotOrders (r : Reply (list Order))
| GotConfigure (r : Reply string)
| GotProducts (supplierId : string) (r : Reply (list Product))
| GotOrder (r : Reply string)
| GotTest (supplierId : string) (r : Reply Datatypes.unit).

(** Some card of the list shows supplier [supplierId]. *)
Definition listed (supplierId : string) (s : State) : bool :=
  existsb (fun supplier => JS.seq (id supplier) supplierId) (suppliers s).

(** The same, among [suppliers.filter(s => s.integration_type === 'api')]. *)
Definition listed_api (supplierId : string) (s : State) : bool :=
  existsb (fun supplier => JS.seq (id supplier) supplierId)
    (List.filter (fun supplier => JS.seq (integration_type supplier) "api")
       (suppliers s)).

(** [{message && <Alert ...>}]: the alert is there for a truthy message. *)
Definition shown (message : option string) : bool :=
  match message with
  | Some text => JS.truthy text
  | None => false
  end.

Definition is_api (t : OrderType) : bool :=
  match t with api => true | _ => false end.

Definition is_email (t : OrderType) : bool :=
  match t with email => true | _ => false end.

(** When the control behind an event is on screen and not disabled, as the
    JSX says: the tab it lives on is the active one, its dialog is open,
    the conditional rendering around it holds, its [disabled] is false.
    A reply needs its request in flight. *)
Definition enabled (e : Event) (w : World) : bool :=
  let s := ui w in
  match e with
  | SelectTab newValue => (newValue <? 4)%nat
  | CloseSuccess => shown (success s)
  | CloseError => shown (error s)
  | CardConfigure supplierId => (activeTab s =? 0)%nat && listed supplierId s
  | CardTest supplierId =>
      (activeTab s =? 0)%nat && listed_api supplierId s && negb (loading s)
  | CardViewProducts supplierId =>
      (activeTab s =? 0)%nat && listed supplierId s && negb (loading s)
  | ProductsPlaceOrder => (activeTab s =? 1)%nat && JS.truthy (selectedSupplier s)
  | PickConfigSupplier supplierId => (activeTab s =? 3)%nat && listed_api supplierId s
  | TypeConfig k _ =>
      ((activeTab s =? 3)%nat || showConfigDialog s)
      && match k with
         | f_api_key => true
         | f_location_id => JS.seq (configSupplier s) "bidfood"
         | f_account_number => JS.seq (configSupplier s) "pfd"
         | f_restaurant_id => JS.seq (configSupplier s) "ordermentum"
         end
  | TabConfigure =>
      (activeTab s =? 3)%nat
      && negb (negb (JS.truthy (configSupplier s))
               || negb (JS.truthy (api_key (configData s)))
               || loading s)
  | DialogConfigure =>
      showConfigDialog s
      && negb (negb (JS.truthy (api_key (configData s))) || loading s)
  | CloseConfigDialog => showConfigDialog s
  | PickOrderType _ => showOrderDialog s
  | TypeOrder k value =>
      showOrderDialog s
      && match k with
         | f_supplier_id => is_api (orderType s) && listed_api value s
         | f_supplier_name => negb (is_api (orderType s))
         | f_supplier_email => is_email (orderType s)
         | _ => true
         end
  | AddItem => showOrderDialog s
  | EditItem index _ => showOrderDialog s && (index <? length (items (orderData s)))%nat
  | RemoveItem index => showOrderDialog s && (index <? length (items (orderData s)))%nat
  | DialogPlaceOrder =>
      showOrderDialog s
      && negb (loading s || (length (items (orderData s)) =? 0)%nat)
  | CloseOrderDialog => showOrderDialog s
  | GotSuppliers _ => bool_decide (LoadSuppliers ∈ inflight w)
  | GotOrders _ => bool_decide (LoadOrders ∈ inflight w)
  | GotConfigure _ => bool_decide (ConfigureSupplier ∈ inflight w)
  | GotProducts supplierId _ => bool_decide (GetProducts supplierId ∈ inflight w)
  | GotOrder _ => bool_decide (PlaceOrder ∈ inflight w)
  | GotTest supplierId _ => bool_decide (TestConnection supplierId ∈ inflight w)
  end.

Definition fire (e : Event) (w : World) : World :=
  match e with
  | SelectTab newValue => on_ui (setActiveTab newValue) w
  | CloseSuccess => on_ui (setSuccess None) w
  | CloseError => on_ui (setError None) w
  | CardConfigure supplierId =>
      on_ui (fun s => setShowConfigDialog true (setConfigSupplier supplierId s)) w
  | CardTest supplierId => testConnection supplierId w
  | CardViewProducts supplierId => getProducts supplierId None w
  | ProductsPlaceOrder =>
      on_ui (fun s =>
               setShowOrderDialog true
                 (setOrderData (with_field f_supplier_id (selectedSupplier s))
                    (setOrderType api s)))
        w
  | PickConfigSupplier supplierId => on_ui (setConfigSupplier supplierId) w
  | TypeConfig k value =>
      on_ui (fun s => setConfigData (with_config k value (configData s)) s) w
  | TabConfigure => configureSupplier w
  | DialogConfigure => configureSupplier w
  | CloseConfigDialog => on_ui (setShowConfigDialog false) w
  | PickOrderType t => on_ui (setOrderType t) w
  | TypeOrder k value => on_ui (setOrderData (with_field k value)) w
  | AddItem => on_ui addOrderItem w
  | EditItem index c => on_ui (updateOrderItem index c) w
  | RemoveItem index => on_ui (removeOrderItem index) w
  | DialogPlaceOrder => placeOrder w
  | CloseOrderDialog => on_ui (setShowOrderDialog false) w
  | GotSuppliers r => on_ui (loadSuppliers_reply r) (receive LoadSuppliers w)
  | GotOrders r => on_ui (loadOrders_reply r) (receive LoadOrders w)
  | GotConfigure r => on_ui (configureSupplier_reply r) (receive ConfigureSupplier w)
  | GotProducts supplierId r =>
      on_ui (getProducts_reply supplierId r) (receive (GetProducts supplierId) w)
  | GotOrder r => placeOrder_reply r (receive PlaceOrder w)
  | GotTest supplierId r =>
      on_ui (testConnection_reply supplierId r) (receive (TestConnection supplierId) w)
  end.

(** A control that is not on screen, or is disabled, takes no click. *)
Definition step (w : World) (e : Event) : World :=
  if enabled e w then fire e w else w.

Definition run (events : list Event) (w : World) : World :=
  fold_left step events w.

(** The component right after mounting: [useEffect] has called
    [loadSuppliers()] and [loadOrders()]. *)
Definition mounted : World :=
  loadOrders (loadSuppliers {| ui := initial; inflight := []; sent := [] |}).

(** *** Predicates on calls and requests, for the properties *)

(** The calls whose handler sets [loading]: all but [loadOrders]. *)
Definition sets_loading (c : Call) : bool :=
  match c with
  | LoadOrders => false
  | _ => true
  end.

(** A request that carries what its button was for: a configuration has an
    API key that is not blank, an order has at least one item; a request
    without a body passes. *)
Definition carries_payload (r : Request) : bool :=
  match body r with
  | Some (JS.JObj fields) =>
      if is_template "/configure" (endpoint r)
      then match JS.field "api_key" fields with
           | Some (JS.JStr key) => JS.truthy key
           | _ => false
           end
      else match JS.field "items" fields with
           | Some (JS.JArr (_ :: _)) => true
           | _ => false
           end
  | Some _ => false
  | None => true
  end.

(** An item as the dialog creates it, in the fields no control writes:
    product id and notes are blank. *)
Definition blank_item_json (item : JS.JSON) : bool :=
  match item with
  | JS.JObj fields =>
      match JS.field "product_id" fields, JS.field "notes" fields with
      | Some (JS.JStr p), Some (JS.JStr n) => negb (JS.truthy p) && negb (JS.truthy n)
      | _, _ => false
      end
  | _ => false
  end.

(** A request whose body, where it has [urgent] or [items], has [urgent]
    false and only items with blank product id and notes. *)
Definition plain_request (r : Request) : bool :=
  match body r with
  | Some (JS.JObj fields) =>
      match JS.field "urgent" fields with
      | Some (JS.JBool b) => negb b
      | Some _ => false
      | None => true
      end
      && match JS.field "items" fields with
         | Some (JS.JArr its) => forallb blank_item_json its
         | Some _ => false
         | None => true
         end
  | Some _ => false
  | None => true
  end.

(** The same on the order form. *)
Definition plain_form (od : OrderData) : Prop :=
  urgent od = false
  /\ Forall (fun item => item_product_id item = "" /\ item_notes item = "") (items od).

(** One request at a time: [loading] is set exactly while one call other
    than [loadOrders] is awaited, and never are two of them in flight. *)
Definition single_flight (w : World) : Prop :=
  length (List.filter sets_loading (inflight w))
  = if loading (ui w) then 1%nat else 0%nat.

(** Every request sent carries its payload. *)
Definition payload_inv (w : World) : Prop :=
  forallb carries_payload (sent w) = true.

(** The order form and every request sent are plain. *)
Definition plain_inv (w : World) : Prop :=
  plain_form (orderData (ui w)) /\ forallb plain_request (sent w) = true.

Definition is_load_suppliers (c : Call) : bool :=
  match c with
  | LoadSuppliers => true
  | _ => false
  end.

(** If [r] is the [fetch] that [testConnection] makes for some supplier,
    that supplier is an API supplier of the list [sups]. *)
Definition tests_api_supplier (sups : list Supplier) (r : Request) : Prop :=
  forall supplierId,
    r = testConnection_request supplierId ->
    existsb (fun supplier => JS.seq (id supplier) supplierId)
      (List.filter (fun supplier => JS.seq (integration_type supplier) "api") sups)
    = true.

(** Every [fetch] of [testConnection] is for an API supplier of the list;
    the list is still empty while [loadSuppliers] is awaited, which happens
    once. *)
Definition tested_inv (w : World) : Prop :=
  Forall (tests_api_supplier (suppliers (ui w))) (sent w)
  /\ (length (List.filter is_load_suppliers (inflight w)) <= 1)%nat
  /\ (List.filter is_load_suppliers (inflight w) <> [] -> suppliers (ui w) = []).

End SupplierAPIIntegrations.

(** ** The orchestration layer behind the endpoints

    None of it is in the sources; each definition follows the written
    specification (sections 3, 4.2, 4.4 and 4.5). *)

Module Backend.

Module UI := SupplierAPIIntegrations.

(** *** Integration Registry (section 4.2) *)

Module Registry.

(** Modelled from the spec: the status of a [SupplierConnection]
    (the server-side connection record is missing from the sources),
    [unconfigured -> configured -> verified -> error]. *)
Inductive Status : Type := unconfigured | configured | verified | error.

(** Modelled from the spec: the registry's persisted state (missing
    from the sources): per tenant and supplier id the status of the
    connection, and what the vault holds for it.  A connection that was
    never written is [unconfigured]. *)
Record Registry : Type := {
  connections : gmap (string * string) Status;
  vault : gmap (string * string) (gmap string string)
}.

Definition empty : Registry := {| connections := ∅; vault := ∅ |}.

Definition status_of (reg : Registry) (tenant supplierId : string) : Status :=
  default unconfigured (connections reg !! (tenant, supplierId)).

(** Modelled from the spec: the result of [configure] (missing from the
    sources); a [ConfigurationError] names the missing field. *)
Inductive ConfigureResult : Type :=
| Configured
| ConfigurationError (missing : string).

(** Modelled from the spec: a required field is present in the
    submitted configuration (the server's completeness check is missing
    from the sources).  The client sends every field of its form, blank
    ones as [''], and itself takes a blank API key for a missing one;
    so a field counts as present when the configuration has a value for
    it that is not blank. *)
Definition present (configFields : gmap string string) (f : string) : bool :=
  match configFields !! f with
  | Some v => JS.truthy v
  | None => false
  end.

(** Modelled from the spec: [configure(tenant, supplierId, configFields)]
    (the server's handler of [/configure] is missing from the sources)
    validates field completeness against [required_config], stores the
    secrets through the vault and sets the status to [configured];
    omitting a required field yields [ConfigurationError] and changes
    nothing. *)
Definition configure (def : UI.Supplier) (tenant : string)
    (configFields : gmap string string) (reg : Registry)
  : ConfigureResult * Registry :=
  match List.filter (fun f => negb (present configFields f)) (UI.required_config def) with
  | [] =>
      (Configured,
       {| connections := <[(tenant, UI.id def) := configured]> (connections reg);
          vault := <[(tenant, UI.id def) := configFields]> (vault reg) |})
  | f :: _ => (ConfigurationError f, reg)
  end.

(** The string-valued fields of a JSON object, as a finite map. *)
Definition fields_of (body : option JS.JSON) : gmap string string :=
  match body with
  | Some (JS.JObj fields) =>
      list_to_map
        (omap (fun kv => match snd kv with
                         | JS.JStr v => Some (fst kv, v)
                         | _ => None
                         end) fields)
  | _ => ∅
  end.

(** The client's Configure button of the dialog followed by the
    server's [configure] on what was sent: [None] when the button is
    disabled and nothing is sent. *)
Definition configure_from_dialog (def : UI.Supplier) (tenant : string)
    (reg : Registry) (w : UI.World) : option (ConfigureResult * Registry) :=
  if UI.enabled UI.DialogConfigure w
  then Some (configure def tenant
               (fields_of (UI.body (UI.configure_request (UI.ui w)))) reg)
  else None.

End Registry.

(** *** Order Lifecycle Manager (section 4.4) *)

Module OrderLifecycle.

(** Modelled from the spec: the states of an [OrderRecord] (the
    lifecycle manager is missing from the sources). *)
Inductive OrderState : Type :=
| created | submitted | confirmed | shipped | delivered | failed | cancelled.

(** Modelled from the spec: the [OrderRecord] (missing from the
    sources). *)
Record OrderRecord : Type := {
  order_id : string;
  external_reference : option string;
  state : OrderState;
  total_amount : JS.number;
  channel : UI.OrderType;
  failure_reason : option string
}.

(** Modelled from the spec: the order total (the server's computation
    is missing from the sources), the sum over the line items of
    quantity times unit price. *)
Definition order_total (items : list UI.OrderItem) : JS.number :=
  fold_left
    (fun sum item => PrimFloat.add sum (PrimFloat.mul (UI.quantity item) (UI.unit_price item)))
    items 0%float.

(** Modelled from the spec: an [OrderRequest] is validated (the server's
    check is missing from the sources) when its items are non-empty,
    its quantities are > 0 and its total is at least the supplier's
    minimum order. *)
Definition validated (minimum_order : JS.number) (items : list UI.OrderItem) : bool :=
  negb (length items =? 0)%nat
  && forallb (fun item => JS.gt (UI.quantity item) 0%float) items
  && JS.ge (order_total items) minimum_order.

(** Modelled from the spec: what the lifecycle manager answers to an
    [OrderRequest] (missing from the sources): a rejected request, or
    an [OrderRecord] in state [created]. *)
Inductive Acceptance : Type :=
| Rejected
| Accepted (record : OrderRecord).

Definition accept (minimum_order : JS.number) (order_id : string)
    (channel : UI.OrderType) (items : list UI.OrderItem) : Acceptance :=
  if validated minimum_order items
  then Accepted {| order_id := order_id; external_reference := None;
                   state := created; total_amount := order_total items;
                   channel := channel; failure_reason := None |}
  else Rejected.

(** The client's Place Order button of the dialog followed by the
    server's acceptance of the items sent: [None] when the button is
    disabled and nothing is sent.  [order_id] is the id the server gives
    the order. *)
Definition place (minimum_order : JS.number) (order_id : string) (w : UI.World)
  : option Acceptance :=
  if UI.enabled UI.DialogPlaceOrder w
  then Some (accept minimum_order order_id (UI.orderType (UI.ui w))
               (UI.items (UI.orderData (UI.ui w))))
  else None.

End OrderLifecycle.

(** *** POS Sync Engine (section 4.5) *)

Module PosSync.

(** Modelled from the spec: the payload of a [SyncEvent] (the sync
    engine is missing from the sources): a signed stock delta (a sale
    is negative), or a stock level to set. *)
Inductive Payload : Type :=
| Delta (signedQuantity : Z)
| SetLevel (level : Z).

(** Modelled from the spec: a [SyncEvent] (missing from the sources);
    [position] is the cursor of its stream once the event is consumed. *)
Record SyncEvent : Type := {
  event_id : string;
  stream : string;
  product : string;
  payload : Payload;
  position : string
}.

(** Modelled from the spec: what the engine and the ledger persist
    (missing from the sources): the events marked processed, per tenant
    and stream; the ledger's quantity per tenant and product; the cursor
    per tenant and stream. *)
Record State : Type := {
  processed : gset (string * string * string);
  ledger : gmap (string * string) Z;
  cursor : gmap (string * string) string
}.

Definition empty : State := {| processed := ∅; ledger := ∅; cursor := ∅ |}.

Definition quantity_of (st : State) (tenant product : string) : Z :=
  default 0%Z (ledger st !! (tenant, product)).

Definition applied (p : Payload) (q : Z) : Z :=
  match p with
  | Delta d => (q + d)%Z
  | SetLevel v => v
  end.

(** Modelled from the spec: the handling of one delivered event (missing
    from the sources).  An event already marked processed for the
    tenant and stream is discarded without side effects; otherwise the
    delta goes to the ledger in one update keyed by the event id, which
    marks the event, and the cursor advances after it; when the ledger
    refuses ([ledger_ok] false) nothing changes and the event comes back
    on the next cycle. *)
Definition deliver (tenant : string) (ledger_ok : bool) (ev : SyncEvent)
    (st : State) : State :=
  let key := (tenant, stream ev, event_id ev) in
  if decide (key ∈ processed st) then st
  else if ledger_ok then
    {| processed := {[ key ]} ∪ processed st;
       ledger := <[(tenant, product ev) :=
                     applied (payload ev) (quantity_of st tenant (product ev))]>
                   (ledger st);
       cursor := <[(tenant, stream ev) := position ev]> (cursor st) |}
  else st.

(** A sync cycle: the events as they arrive, each with the ledger's
    answer to it. *)
Definition cycle (tenant : string) (arrivals : list (bool * SyncEvent))
    (st : State) : State :=
  fold_left (fun st a => deliver tenant (fst a) (snd a) st) arrivals st.

End PosSync.

End Backend.

(** ** Concrete inputs *)

Module Scenario.

Import SupplierAPIIntegrations.

(** A supplier without an API, as the supplier list can hold one. *)
Definition farm : Supplier :=
{| id := "farm"; name := "Hill Farm"; description := "Orders by phone";
   integration_type := "manual"; features := []; categories := ["food"];
   minimum_order := 50%float; delivery_lead_time := 3%float;
   required_config := [] |}.

(** An API supplier that asks for two configuration fields. *)
Definition bidfood : Supplier :=
{| id := "bidfood"; name := "Bidfood"; description := "Foodservice distributor";
   integration_type := "api"; features := ["automated_ordering"];
   categories := ["food"]; minimum_order := 200%float;
   delivery_lead_time := 2%float;
   required_config := ["api_key"; "location_id"] |}.

Definition eggs : Product :=
{| product_id := "p1"; product_name := "Eggs"; product_description := "";
   price := 4%float; product_unit := "dozen"; category := "food";
   in_stock := true; min_order_qty := 1%float; lead_time_days := 3%float;
   last_updated := "2024-01-01" |}.

Definition coffee : OrderItem :=
{| item_product_id := "coffee"; item_name := "coffee"; quantity := 5%float;
   unit := "kg"; unit_price := 25%float; item_notes := "" |}.

(** An order as the dialog can hold it. *)
Definition coffee_order : OrderData :=
{| supplier_id := "bidfood"; supplier_name := "Bidfood";
   supplier_email := "orders@bidfood.example"; items := [coffee];
   delivery_address := "1 Main St"; delivery_date := "2024-02-01";
   contact_person := "Sam"; contact_phone := "555"; contact_email := "sam@example.org";
   notes := ""; urgent := false |}.

(** The user looks at the products of [farm], goes to the Products tab,
    presses Place Order there, adds an item and places the order. *)
Definition order_from_products_tab : list Event :=
[ GotSuppliers (Ok [farm; bidfood]);
  CardViewProducts "farm";
  GotProducts "farm" (Ok [eggs]);
  SelectTab 1;
  ProductsPlaceOrder;
  AddItem;
  DialogPlaceOrder ].

End Scenario.

(** ** More concrete inputs *)

Module Samples.

(** The rules page with the form filled in. *)
Definition rules_with_form : SalesAutoDeduction.State :=
{| SalesAutoDeduction.rules := SalesAutoDeduction.rules SalesAutoDeduction.initial;
   SalesAutoDeduction.newRule :=
     {| SalesAutoDeduction.new_name := "Card fees";
        SalesAutoDeduction.new_percentage := 2%float;
        SalesAutoDeduction.new_description := "Deduct card processing fees" |} |}.

(** The wizard after its session could not be created. *)
Definition wizard_without_session : SetupWizard.World :=
  SetupWizard.step SetupWizard.mounted (SetupWizard.GotSession Thrown).

(** The wizard with its session, on the first step. *)
Definition wizard_with_session : SetupWizard.World :=
  SetupWizard.step SetupWizard.mounted (SetupWizard.GotSession (Ok "session-1")).

(** A reply of the server that refuses a step. *)
Definition step_refused : Reply SetupWizard.StepResult :=
  Ok {| SetupWizard.is_valid := false;
        SetupWizard.errors := ["Restaurant name is required"];
        SetupWizard.warnings := [] |}.

(** The wizard on its second step, the save of that step awaited. *)
Definition wizard_saving : SetupWizard.World :=
  SetupWizard.run [ SetupWizard.ClickNext;
                    SetupWizard.GotSave 0 step_refused;
                    SetupWizard.ClickNext ]
    wizard_with_session.

(** The wizard on its second step (Menu Items), nothing awaited. *)
Definition wizard_on_menu_items : SetupWizard.World :=
  SetupWizard.run [ SetupWizard.ClickNext;
                    SetupWizard.GotSave 0 step_refused ]
    wizard_with_session.

(** To the second step and back, each Back click on the active step. *)
Definition there_and_back : list SetupWizard.Event :=
[ SetupWizard.GotSession (Ok "session-1");
  SetupWizard.ClickNext;
  SetupWizard.GotSave 0 step_refused;
  SetupWizard.ClickBack 1;
  SetupWizard.Collapsed 1 ].

(** The user goes on to the second step and presses Back twice: the second
    click lands on the Back button of the second step, which is not
    disabled and is still mounted while the step, just left, collapses. *)
Definition back_twice : list SetupWizard.Event :=
[ SetupWizard.GotSession (Ok "session-1");
  SetupWizard.ClickNext;
  SetupWizard.GotSave 0 (Ok {| SetupWizard.is_valid := true;
                                SetupWizard.errors := [];
                                SetupWizard.warnings := [] |});
  SetupWizard.ClickBack 1;
  SetupWizard.ClickBack 1 ].

End Samples.

(* ================================================================== *)
(** * Properties *)

Section JS_facts.

Lemma truthy_nonempty (s : string) : JS.truthy s = true <-> s <> "".
Proof. destruct s; simpl; split; congruence. Qed.

Lemma seq_eq (a b : string) : JS.seq a b = true <-> a = b.
Proof. apply String.eqb_eq. Qed.

End JS_facts.

Section SalesAutoDeduction_facts.
Import SalesAutoDeduction.

Lemma flip_flip rule : flip (flip rule) = rule.
Proof.
  destruct rule as [i n p a d]. unfold flip; simpl.
  by rewrite negb_involutive.
Qed.

Lemma toggleRules_twice i rs : toggleRules i (toggleRules i rs) = rs.
Proof.
  unfold toggleRules. rewrite map_map.
  induction rs as [|r rs IH]; simpl; [done|].
  rewrite IH. f_equal.
  destruct (JS.seq (id r) i) eqn:E.
  - change (id (flip r)) with (id r). rewrite E. apply flip_flip.
  - by rewrite E.
Qed.

Lemma toggleRules_local i rs : Forall2 (toggled i) rs (toggleRules i rs).
Proof.
  induction rs as [|r rs IH]; simpl; constructor; [|exact IH].
  unfold toggled. destruct (JS.seq (id r) i); simpl.
  - by rewrite xorb_true_r.
  - by rewrite xorb_false_r.
Qed.

(** C8: toggling a rule id twice gives the rules list back, and one toggle
    changes nothing but the [active] flag of the rules with that id: name,
    percentage and description stay, every other rule stays, and so does
    the form. *)
Theorem handleToggleRule_involutive_and_local (i : string) (st : State) :
  handleToggleRule i (handleToggleRule i st) = st
  /\ Forall2 (toggled i) (rules st) (rules (handleToggleRule i st))
  /\ newRule (handleToggleRule i st) = newRule st.
Proof.
  destruct st as [rs nr]. unfold handleToggleRule; simpl.
  split; [by rewrite toggleRules_twice|].
  split; [apply toggleRules_local | done].
Qed.

(** C9: [handleAddRule] appends exactly one rule, inactive and with the
    entered name, percentage and description, when the entered name is not
    empty and the entered percentage is > 0; otherwise it leaves the state
    as it is. *)
Theorem handleAddRule_appends_one_inactive_rule (now : string) (st : State) :
  let entered := newRule st in
  let accepted :=
    JS.truthy (new_name entered) && JS.gt (new_percentage entered) 0%float in
  rules (handleAddRule now st)
  = rules st
    ++ (if accepted
        then [ {| id := now; name := new_name entered;
                  percentage := new_percentage entered; active := false;
                  description := new_description entered |} ]
        else [])
  /\ length (rules (handleAddRule now st))
     = (length (rules st) + (if accepted then 1 else 0))%nat
  /\ (if accepted then True else handleAddRule now st = st).
Proof.
  intros entered accepted. unfold handleAddRule.
  fold entered. fold accepted.
  destruct accepted; simpl.
  - repeat split. rewrite length_app. simpl. lia.
  - rewrite app_nil_r. repeat split. lia.
Qed.

End SalesAutoDeduction_facts.

Section SetupWizard_facts.
Import SetupWizard.

Lemma elem_of_remove1 (p q : Pending) (l : list Pending) :
  q ∈ remove1 p l -> q ∈ l.
Proof.
  induction l as [|x l IH]; simpl; [done|].
  destruct (decide (x = p)); [by right|].
  intros H. apply elem_of_cons in H as [->|H]; [by left | right; by apply IH].
Qed.

Lemma awaited_remove1_true (p : Pending) (l : list Pending) :
  sets_loading p = true -> p ∈ l ->
  S (length (List.filter sets_loading (remove1 p l)))
  = length (List.filter sets_loading l).
Proof.
  intros Hp Hin. induction l as [|q l IH]; [by apply not_elem_of_nil in Hin|].
  simpl. destruct (decide (q = p)) as [->|Hne].
  - by rewrite Hp.
  - apply elem_of_cons in Hin as [->|Hin]; [done|].
    simpl. destruct (sets_loading q); simpl; rewrite <- (IH Hin); done.
Qed.

Lemma awaited_remove1_false (p : Pending) (l : list Pending) :
  sets_loading p = false ->
  List.filter sets_loading (remove1 p l) = List.filter sets_loading l.
Proof.
  intros Hp. induction l as [|q l IH]; [done|].
  simpl. destruct (decide (q = p)) as [->|Hne].
  - by rewrite Hp.
  - simpl. destruct (sets_loading q); by rewrite IH.
Qed.

Lemma awaited_none (p : Pending) (l : list Pending) :
  List.filter sets_loading l = [] -> p ∈ l -> sets_loading p = false.
Proof.
  intros Hnone Hin. induction l as [|q l IH]; [by apply not_elem_of_nil in Hin|].
  simpl in Hnone. destruct (sets_loading q) eqn:Hq; [discriminate Hnone|].
  apply elem_of_cons in Hin as [->|Hin]; [done | by apply IH].
Qed.

Lemma ui_settle (before after : World) : ui (settle before after) = ui after.
Proof. unfold settle. by destruct (_ =? _)%Z. Qed.

Lemma inflight_settle (before after : World) :
  inflight (settle before after) = inflight after.
Proof. unfold settle. by destruct (_ =? _)%Z. Qed.

Lemma wizard_inv_settle (before after : World) :
  wizard_inv after -> wizard_inv (settle before after).
Proof.
  unfold wizard_inv, wizard_busy. by rewrite ui_settle, inflight_settle.
Qed.

Lemma wizard_inv_mounted : wizard_inv mounted.
Proof.
  split; [simpl; lia|]. split; [reflexivity|].
  intros sv H. simpl in H. apply list_elem_of_singleton in H. discriminate H.
Qed.

(** A handler that moves the index down or back to 0, keeps [loading] and
    the requests in flight. *)
Lemma wizard_inv_cells (w : World) (s' : State) (l : list Z) (d : list (string * string)) :
  (activeStep s' <= Z.max (activeStep (ui w)) 0)%Z ->
  loading s' = loading (ui w) ->
  wizard_inv w ->
  wizard_inv {| ui := s'; inflight := inflight w; leaving := l; downloads := d |}.
Proof.
  unfold wizard_inv, wizard_busy. intros Ha Hl (Hmax & Hbusy & Hsave). simpl.
  rewrite Hl. split; [lia|]. split; [done|].
  intros sv Hsv. specialize (Hsave sv Hsv). lia.
Qed.

(** The reply to a request that sets [loading]. *)
Lemma wizard_inv_reply (w : World) (p : Pending) (s' : State) (l : list Z)
    (d : list (string * string)) :
  sets_loading p = true -> bool_decide (p ∈ inflight w) = true ->
  loading s' = false -> (activeStep s' <= 4)%Z ->
  wizard_busy w ->
  wizard_inv {| ui := s'; inflight := remove1 p (inflight w);
                leaving := l; downloads := d |}.
Proof.
  unfold wizard_inv, wizard_busy. intros Hp Hin Hl Ha Hbusy. simpl.
  apply bool_decide_eq_true in Hin.
  pose proof (awaited_remove1_true p (inflight w) Hp Hin) as Hcount.
  assert (Hnone : List.filter sets_loading (remove1 p (inflight w)) = []).
  { apply length_zero_iff_nil. destruct (loading (ui w)); lia. }
  rewrite Hl, Hnone. split; [done|]. split; [done|].
  intros sv Hsv. by pose proof (awaited_none _ _ Hnone Hsv).
Qed.

(** A request that sets [loading], sent while nothing is loading. *)
Lemma wizard_inv_send (w : World) (p : Pending) :
  loading (ui w) = false ->
  (forall sv, p = SaveStep sv -> (activeStep (ui w) <= 3)%Z) ->
  sets_loading p = true ->
  wizard_inv w -> wizard_inv (send p w).
Proof.
  unfold wizard_inv, wizard_busy. intros Hl Hp Hsets (Hmax & Hbusy & Hsave). simpl.
  rewrite List.filter_app, length_app. simpl. rewrite Hsets, Hbusy, Hl.
  split; [done|]. split; [done|].
  intros sv Hsv. apply elem_of_app in Hsv as [Hsv|Hsv]; [by apply (Hsave sv)|].
  apply list_elem_of_singleton in Hsv. by apply (Hp sv).
Qed.

Lemma wizard_inv_step (w : World) (e : Event) :
  wizard_inv w -> wizard_inv (step w e).
Proof.
  intros Hw. unfold step. destruct (enabled e w) eqn:Hen; [|done].
  apply wizard_inv_settle. pose proof Hw as (Hmax & Hbusy & Hsave).
  destruct e as [|index| |ft| |has_text| | |ft|index|r|sv r|r|r|ft r];
    simpl in Hen; unfold fire.
  - (* ClickNext *)
    apply andb_true_iff in Hen as [_ Hen]. apply negb_true_iff in Hen.
    unfold handleNext, completeSetup.
    change (Z.of_nat (length steps) - 1)%Z with 4%Z.
    destruct (Z.eqb_spec (activeStep (ui w)) 4) as [E|E].
    + destruct (has_session (ui w)); [|done].
      apply wizard_inv_send; [done|discriminate|done|done].
    + destruct (has_session (ui w)); simpl.
      * destruct (in_switch (activeStep (ui w))).
        -- apply wizard_inv_send; [done| |done|done].
           intros sv0 [= <-]. lia.
        -- unfold wizard_inv, wizard_busy in *. simpl. rewrite Hen in Hbusy.
           split; [lia|]. split; [done|].
           intros sv0 Hsv. apply length_zero_iff_nil in Hbusy.
           by pose proof (awaited_none _ _ Hbusy Hsv).
      * unfold wizard_inv, wizard_busy in *. simpl. rewrite Hen in *.
        split; [lia|]. split; [done|].
        intros sv0 Hsv. apply length_zero_iff_nil in Hbusy.
        by pose proof (awaited_none _ _ Hbusy Hsv).
  - (* ClickBack *)
    unfold handleBack, on_ui. apply wizard_inv_cells; [simpl; lia|done|done].
  - (* ClickReset *)
    unfold handleReset, on_ui. apply wizard_inv_cells; [simpl; lia|done|done].
  - (* OpenCsv *)
    unfold on_ui. apply wizard_inv_cells; [simpl; lia|done|done].
  - (* CloseCsv *)
    unfold on_ui. apply wizard_inv_cells; [simpl; lia|done|done].
  - (* ClickUpload *)
    apply andb_true_iff in Hen as [_ Hen]. apply negb_true_iff in Hen.
    unfold handleCsvUpload.
    destruct (negb (has_session (ui w)) || negb has_text); [done|].
    apply wizard_inv_send; [done|discriminate|done|done].
  - (* CloseSuccess *)
    unfold on_ui. apply wizard_inv_cells; [simpl; lia|done|done].
  - (* CloseError *)
    unfold on_ui. apply wizard_inv_cells; [simpl; lia|done|done].
  - (* ClickDownload *)
    unfold downloadTemplate, wizard_inv, wizard_busy in *. simpl.
    rewrite List.filter_app. simpl. rewrite app_nil_r.
    split; [done|]. split; [done|].
    intros sv Hsv. apply elem_of_app in Hsv as [Hsv|Hsv]; [by apply (Hsave sv)|].
    apply list_elem_of_singleton in Hsv. discriminate Hsv.
  - (* Collapsed *)
    apply wizard_inv_cells; [lia|done|done].
  - (* GotSession *)
    unfold on_ui, receive; simpl.
    apply wizard_inv_reply; [done|exact Hen| | |done]; destruct r; simpl; first [lia|done].
  - (* GotSave *)
    assert (Ha : (activeStep (ui w) <= 3)%Z).
    { apply (Hsave sv). by apply bool_decide_eq_true in Hen. }
    unfold handleNext_resume, on_ui, receive; simpl.
    apply wizard_inv_reply; [done|exact Hen| | |done].
    + destruct r as [data| |]; simpl; [by destruct (is_valid data)|done..].
    + destruct r as [data| |]; simpl; [destruct (is_valid data)|..]; simpl; lia.
  - (* GotComplete *)
    unfold on_ui, receive; simpl.
    apply wizard_inv_reply; [done|exact Hen| | |done]; destruct r; simpl; first [lia|done].
  - (* GotCsv *)
    unfold on_ui, receive; simpl.
    apply wizard_inv_reply; [done|exact Hen| | |done];
      (destruct r as [data| |]; simpl; [destruct (csv_success data)|..]; simpl;
       first [lia|done]).
  - (* GotTemplate *)
    assert (Hrecv : wizard_inv (receive (DownloadTemplate ft) w)).
    { unfold wizard_inv, wizard_busy, receive in *. simpl.
      rewrite awaited_remove1_false by done. split; [done|]. split; [done|].
      intros sv Hsv. apply (Hsave sv). by apply elem_of_remove1 in Hsv. }
    unfold downloadTemplate_reply.
    destruct r as [data| |]; [|done|].
    + apply (wizard_inv_cells (receive (DownloadTemplate ft) w)); [simpl; lia|done|done].
    + unfold on_ui.
      apply (wizard_inv_cells (receive (DownloadTemplate ft) w)); [simpl; lia|done|done].
Qed.

Lemma wizard_inv_run events : forall w, wizard_inv w -> wizard_inv (run events w).
Proof.
  induction events as [|e events IH]; intros w Hw; [done|].
  simpl. apply IH. by apply wizard_inv_step.
Qed.

(** C10 at a failing input: every step renders its own Back button,
    disabled by its own [index === 0] and not by the active step, and
    [handleBack] decrements without a lower bound.  On the second step,
    after Back has moved the wizard to the first step, the Back button of
    the second step is still mounted and enabled; a second click on it
    drives the active step index to -1. *)
Theorem back_on_collapsing_step_goes_below_zero :
  let before := run (take 4 Samples.back_twice) mounted in
  let after := run Samples.back_twice mounted in
  activeStep (ui before) = 0%Z
  /\ leaving before = [1%Z]
  /\ enabled (ClickBack 1) before = true
  /\ after = step before (ClickBack 1)
  /\ activeStep (ui after) = (-1)%Z.
Proof.
  intros before after.
  split; [|split; [|split; [|split]]]; vm_compute; reflexivity.
Qed.

End SetupWizard_facts.

Section SupplierAPIIntegrations_facts.
Import SupplierAPIIntegrations.

(** C2: placing an order posts to the endpoint of the chosen channel:
    ['api'] to [/order] with a [supplier_id], ['pdf'] to [/order-sheet/pdf]
    with a [supplier_name], ['email'] to [/order-sheet/email]; only the
    ['email'] body has a [supplier_email]; the three bodies carry the same
    items, delivery, contact, notes and urgency fields. *)
Theorem placeOrder_routes_by_channel (w : World) :
  let s := ui w in
  let od := orderData s in
  sent (placeOrder w)
  = sent w ++ [ {| method := POST; endpoint := order_endpoint (orderType s);
                   query := [];
                   body := Some (JS.JObj (requestData (orderType s) od)) |} ]
  /\ (order_endpoint api = "/order"
      /\ JS.field "supplier_id" (requestData api od) = Some (JS.JStr (supplier_id od)))
  /\ (order_endpoint pdf = "/order-sheet/pdf"
      /\ JS.field "supplier_name" (requestData pdf od) = Some (JS.JStr (supplier_name od)))
  /\ (order_endpoint email = "/order-sheet/email"
      /\ JS.field "supplier_email" (requestData email od)
         = Some (JS.JStr (supplier_email od)))
  /\ (forall t, JS.has_key "supplier_email" (requestData t od) = is_email t)
  /\ (forall t,
        map (fun k => JS.field k (requestData t od))
          ["items"; "delivery_address"; "delivery_date"; "contact_person";
           "contact_phone"; "contact_email"; "notes"; "urgent"]
        = [ Some (JS.JArr (map item_json (items od)));
            Some (JS.JStr (delivery_address od));
            Some (JS.JStr (delivery_date od));
            Some (JS.JStr (contact_person od));
            Some (JS.JStr (contact_phone od));
            Some (JS.JStr (contact_email od));
            Some (JS.JStr (notes od));
            Some (JS.JBool (urgent od)) ]).
Proof.
  intros s od. repeat split; try reflexivity.
  - intros t. by destruct t.
  - intros t. by destruct t.
Qed.

(** The body of an order, on a concrete order and for each channel, has no
    order id in it. *)
Lemma placeOrder_body_without_order_id :
  JS.keys (requestData api Scenario.coffee_order)
  = ["supplier_id"; "items"; "delivery_address"; "delivery_date";
     "contact_person"; "contact_phone"; "contact_email"; "notes"; "urgent"]
  /\ JS.has_key "order_id" (requestData api Scenario.coffee_order) = false
  /\ JS.has_key "order_id" (requestData pdf Scenario.coffee_order) = false
  /\ JS.has_key "order_id" (requestData email Scenario.coffee_order) = false.
Proof. by repeat split. Qed.

(** C5, as the code has it: no body that [placeOrder] builds carries an
    order id, whatever the channel; the order id is the one in the server's
    reply, which the client shows. *)
Theorem placeOrder_order_id_comes_from_server (t : OrderType) (od : OrderData)
    (order_id : string) (w : World) :
  JS.has_key "order_id" (requestData t od) = false
  /\ success (ui (placeOrder_reply (Ok order_id) w))
     = Some ("Order placed successfully! Order ID: " +:+ order_id).
Proof. split; [by destruct t | reflexivity]. Qed.

Lemma step_products (w : World) (e : Event) :
  products (ui (step w e)) = products (ui w)
  \/ exists supplierId data,
       e = GotProducts supplierId (Ok data) /\ products (ui (step w e)) = data.
Proof.
  unfold step. destruct (enabled e w); [|by left].
  destruct e as [n| | |sid|sid|sid| |sid|k v| | | |t|k v| |i c|i| |
                 |r|r|r|sid r|r|sid r];
    try (by left);
    destruct r as [data|detail|]; try (by left).
  right. by exists sid, data.
Qed.

(** C7: a [getProducts] that fails, by a response that is not OK or by an
    exception, sets an explicit error and leaves the loaded products and the
    selected supplier as they were; nothing but an OK reply to [getProducts]
    replaces the products. *)
Theorem getProducts_failure_keeps_products (supplierId detail : string)
    (s : State) (w : World) (e : Event) :
  (let s' := getProducts_reply supplierId (NotOk detail) s in
   error s' = Some "Failed to load products"
   /\ products s' = products s /\ selectedSupplier s' = selectedSupplier s)
  /\ (let s' := getProducts_reply supplierId Thrown s in
      error s' = Some "Error loading products"
      /\ products s' = products s /\ selectedSupplier s' = selectedSupplier s)
  /\ (products (ui (step w e)) = products (ui w)
      \/ exists supplierId' data,
           e = GotProducts supplierId' (Ok data)
           /\ products (ui (step w e)) = data).
Proof. repeat split. apply step_products. Qed.

(** The Test button is on the cards of API suppliers only: where it takes
    a click, the supplier is one of the API suppliers. *)
Lemma testConnection_for_api_suppliers_only (w : World) (supplierId : string) :
  enabled (CardTest supplierId) w = true -> listed_api supplierId (ui w) = true.
Proof.
  simpl. intros H.
  apply andb_true_iff in H as [H _]. by apply andb_true_iff in H as [_ H].
Qed.

(** So is the supplier menu of the order dialog, for an API order. *)
Lemma dialog_offers_api_suppliers_only (w : World) (supplierId : string) :
  enabled (TypeOrder f_supplier_id supplierId) w = true ->
  listed_api supplierId (ui w) = true.
Proof.
  simpl. intros H.
  apply andb_true_iff in H as [_ H]. by apply andb_true_iff in H as [_ H].
Qed.

(** C4 at a failing input: Place Order on the Products tab opens the dialog
    as an API order for the supplier whose products are shown, with no look
    at its integration type; for the manual supplier [farm] the client then
    posts an API order to [/order]. *)
Theorem api_order_sent_for_manual_supplier :
  let w := run Scenario.order_from_products_tab mounted in
  integration_type Scenario.farm = "manual"
  /\ listed_api "farm" (ui w) = false
  /\ last (sent w)
     = Some {| method := POST; endpoint := "/order"; query := [];
               body := Some (JS.JObj
                 [ ("supplier_id", JS.JStr "farm");
                   ("items",
                    JS.JArr [ JS.JObj [ ("product_id", JS.JStr "");
                                        ("name", JS.JStr "");
                                        ("quantity", JS.JNum 1%float);
                                        ("unit", JS.JStr "kg");
                                        ("unit_price", JS.JNum 0%float);
                                        ("notes", JS.JStr "") ] ]);
                   ("delivery_address", JS.JStr "");
                   ("delivery_date", JS.JStr "");
                   ("contact_person", JS.JStr "");
                   ("contact_phone", JS.JStr "");
                   ("contact_email", JS.JStr "");
                   ("notes", JS.JStr "");
                   ("urgent", JS.JBool false) ]) |}.
Proof. intros w. repeat split; vm_compute; reflexivity. Qed.

End SupplierAPIIntegrations_facts.

Section Registry_facts.
Import Backend.Registry.
Import Backend.

Lemma filter_nil_forallb {A} (p : A -> bool) (l : list A) :
  List.filter (fun x => negb (p x)) l = [] -> forallb p l = true.
Proof.
  induction l as [|x l IH]; simpl; [done|].
  destruct (p x); simpl; [exact IH | discriminate].
Qed.

Lemma filter_cons_forallb {A} (p : A -> bool) (l : list A) x rest :
  List.filter (fun x => negb (p x)) l = x :: rest ->
  forallb p l = false /\ In x l /\ p x = false.
Proof.
  intros E.
  assert (Hx : In x (List.filter (fun x => negb (p x)) l)) by (rewrite E; by left).
  apply filter_In in Hx as [Hin Hpx]. apply negb_true_iff in Hpx.
  repeat split; [|done..].
  apply not_true_is_false. intros Hall.
  rewrite forallb_forall in Hall. specialize (Hall x Hin). congruence.
Qed.

(** C3: [configure] succeeds only when every field of the supplier's
    [required_config] is present in the submitted configuration, and then
    the connection is [configured]; when a required field is omitted the
    result is a [ConfigurationError] naming such a field and the registry,
    so the status of the connection, stays as it was ([unconfigured] for a
    connection not yet configured).  On the client the Configure button of
    the dialog is disabled while the API key is blank, and nothing is sent. *)
Theorem configure_requires_every_required_field (def : UI.Supplier)
    (tenant : string) (configFields : gmap string string) (reg : Registry)
    (w : UI.World) :
  let complete := forallb (present configFields) (UI.required_config def) in
  let out := configure def tenant configFields reg in
  (if complete
   then fst out = Configured
        /\ status_of (snd out) tenant (UI.id def) = configured
   else (exists f, fst out = ConfigurationError f
                   /\ In f (UI.required_config def)
                   /\ present configFields f = false)
        /\ snd out = reg
        /\ status_of (snd (configure def tenant configFields empty)) tenant (UI.id def)
           = unconfigured)
  /\ (if JS.truthy (UI.api_key (UI.configData (UI.ui w)))
      then present (fields_of (UI.body (UI.configure_request (UI.ui w)))) "api_key" = true
      else UI.step w UI.DialogConfigure = w
           /\ UI.step w UI.TabConfigure = w
           /\ configure_from_dialog def tenant reg w = None).
Proof.
  intros complete out. split.
  - unfold complete, out, configure.
    destruct (List.filter _ _) as [|f rest] eqn:E.
    + rewrite (filter_nil_forallb _ _ E). simpl. split; [done|].
      unfold status_of; simpl. by rewrite lookup_insert_eq.
    + destruct (filter_cons_forallb _ _ _ _ E) as (-> & Hin & Hf).
      simpl. split; [by exists f|]. split; [done|].
      destruct (List.filter _ _) eqn:E'; [|done].
      apply filter_nil_forallb in E'.
      rewrite forallb_forall in E'. specialize (E' f Hin). congruence.
  - destruct (JS.truthy _) eqn:Hkey.
    + unfold present, fields_of. simpl.
      rewrite lookup_insert_ne by done. rewrite lookup_insert_eq. exact Hkey.
    + unfold UI.step, configure_from_dialog. simpl. rewrite Hkey. simpl.
      by rewrite orb_true_r, !andb_false_r.
Qed.

(** The dialog on [bidfood], API key typed, location left blank: the
    request leaves the client, and [configure] refuses it for the missing
    [location_id]. *)
Example bidfood_blank_location_rejected :
  let w := UI.run [ UI.GotSuppliers (Ok [Scenario.farm; Scenario.bidfood]);
                    UI.CardConfigure "bidfood";
                    UI.TypeConfig UI.f_api_key "secret" ]
             UI.mounted in
  UI.enabled UI.DialogConfigure w = true
  /\ configure_from_dialog Scenario.bidfood "tenant-1" empty w
     = Some (ConfigurationError "location_id", empty).
Proof. intros w. split; vm_compute; reflexivity. Qed.

End Registry_facts.

Section OrderLifecycle_facts.
Import Backend.OrderLifecycle.
Import Backend.

(** The worked order of the specification: 5 coffee at 25 makes 125. *)
Example coffee_order_total : order_total [Scenario.coffee] = 125%float.
Proof. vm_compute. reflexivity. Qed.

Lemma validated_inv (minimum_order : JS.number) (items : list UI.OrderItem) :
  validated minimum_order items = true ->
  items <> []
  /\ Forall (fun item => JS.gt (UI.quantity item) 0%float = true) items
  /\ JS.ge (order_total items) minimum_order = true.
Proof.
  unfold validated. intros H.
  apply andb_true_iff in H as [H Htotal].
  apply andb_true_iff in H as [Hne Hqty].
  repeat split; [| |done].
  - intros ->. discriminate Hne.
  - rewrite Forall_forall. intros item Hitem. apply list_elem_of_In in Hitem.
    rewrite forallb_forall in Hqty. by apply Hqty.
Qed.

(** C1: an order is placed only for a validated request: the dialog sends
    nothing while the item list is empty, and of what it sends the
    lifecycle manager accepts, as an [OrderRecord] in state [created], only
    the requests whose items are non-empty, whose quantities are all > 0
    and whose total reaches the supplier's minimum order; any other request
    is rejected and leaves no record. *)
Theorem order_placed_only_when_validated (minimum_order : JS.number)
    (order_id : string) (w : UI.World) :
  let items := UI.items (UI.orderData (UI.ui w)) in
  match place minimum_order order_id w with
  | Some (Accepted record) =>
      state record = created
      /\ items <> []
      /\ Forall (fun item => JS.gt (UI.quantity item) 0%float = true) items
      /\ JS.ge (order_total items) minimum_order = true
  | Some Rejected => validated minimum_order items = false
  | None => UI.step w UI.DialogPlaceOrder = w
  end
  /\ (if validated minimum_order items then True
      else place minimum_order order_id w = None
           \/ place minimum_order order_id w = Some Rejected)
  /\ (if (length items =? 0)%nat
      then place minimum_order order_id w = None
           /\ UI.sent (UI.step w UI.DialogPlaceOrder) = UI.sent w
      else True).
Proof.
  intros items. unfold place, accept, UI.step. fold items.
  destruct (UI.enabled UI.DialogPlaceOrder w) eqn:Hen.
  - destruct (validated minimum_order items) eqn:Hv.
    + split; [|split; [done|]].
      * split; [done|]. by apply validated_inv.
      * destruct (length items =? 0)%nat eqn:Hlen; [|done].
        simpl in Hen. unfold items in Hlen. rewrite Hlen in Hen.
        by rewrite orb_true_r, andb_false_r in Hen.
    + split; [done|]. split; [by right|].
      destruct (length items =? 0)%nat eqn:Hlen; [|done].
      simpl in Hen. unfold items in Hlen. rewrite Hlen in Hen.
      by rewrite orb_true_r, andb_false_r in Hen.
  - split; [done|]. split; [by destruct (validated _ _); [|left]|].
    by destruct (length items =? 0)%nat.
Qed.

End OrderLifecycle_facts.

Section PosSync_facts.
Import Backend.PosSync.

Lemma deliver_processed tenant ok ev st :
  (tenant, stream ev, event_id ev) ∈ processed st -> deliver tenant ok ev st = st.
Proof. intros H. unfold deliver. by rewrite decide_True. Qed.

Lemma deliver_keeps_processed tenant ok ev st key :
  key ∈ processed st -> key ∈ processed (deliver tenant ok ev st).
Proof.
  intros H. unfold deliver.
  destruct (decide _); [done|]. destruct ok; [|done]. simpl. set_solver.
Qed.

Lemma deliver_marks tenant ev st :
  (tenant, stream ev, event_id ev) ∈ processed (deliver tenant true ev st).
Proof.
  unfold deliver. destruct (decide _); [done|]. simpl. set_solver.
Qed.

Lemma cycle_app tenant l1 l2 st :
  cycle tenant (l1 ++ l2) st = cycle tenant l2 (cycle tenant l1 st).
Proof. unfold cycle. apply fold_left_app. Qed.

Lemma cycle_keeps_processed tenant arrivals : forall st key,
  key ∈ processed st -> key ∈ processed (cycle tenant arrivals st).
Proof.
  induction arrivals as [|[ok ev] arrivals IH]; intros st key H; [done|].
  simpl. apply IH. by apply deliver_keeps_processed.
Qed.

Lemma deliver_again tenant ok ev st :
  deliver tenant ok ev (deliver tenant true ev st) = deliver tenant true ev st.
Proof. apply deliver_processed, deliver_marks. Qed.

Lemma cycle_duplicates tenant ev oks st :
  cycle tenant (map (fun ok => (ok, ev)) oks) (deliver tenant true ev st)
  = deliver tenant true ev st.
Proof.
  induction oks as [|ok oks IH]; [done|].
  simpl. rewrite deliver_again. exact IH.
Qed.

(** C6: for a tenant and a stream, the delta of an event id reaches the
    ledger at most once.  Delivering the event [S n] times leaves ledger,
    marks and cursor exactly as delivering it once; once it is applied,
    further copies of it change nothing, whatever the ledger would answer
    and wherever they come in the stream. *)
Theorem sync_event_applied_at_most_once (tenant : string) (ev : SyncEvent)
    (st : State) (n : nat) (oks : list bool)
    (before between after : list (bool * SyncEvent)) (ok : bool) :
  Nat.iter (S n) (deliver tenant true ev) st = deliver tenant true ev st
  /\ cycle tenant (map (fun ok => (ok, ev)) oks) (deliver tenant true ev st)
     = deliver tenant true ev st
  /\ cycle tenant (before ++ [(true, ev)] ++ between ++ [(ok, ev)] ++ after) st
     = cycle tenant (before ++ [(true, ev)] ++ between ++ after) st.
Proof.
  split; [|split].
  - induction n as [|n IH]; [done|].
    change (Nat.iter (S (S n)) (deliver tenant true ev) st)
      with (deliver tenant true ev (Nat.iter (S n) (deliver tenant true ev) st)).
    rewrite IH. apply deliver_again.
  - apply cycle_duplicates.
  - rewrite !cycle_app. f_equal. simpl.
    apply deliver_processed, cycle_keeps_processed, deliver_marks.
Qed.

(** The worked event of the specification: the sale [E1] of 3 milk, delivered
    twice, takes 3 off the ledger and not 6. *)
Example milk_sold_once :
  let E1 := {| event_id := "E1"; stream := "sales"; product := "milk";
               payload := Delta (-3); position := "c1" |} in
  let st := {| processed := ∅; ledger := {[ ("t", "milk") := 10%Z ]}; cursor := ∅ |} in
  quantity_of (cycle "t" [(true, E1); (true, E1)] st) "t" "milk" = 7%Z.
Proof. intros E1 st. vm_compute. reflexivity. Qed.

End PosSync_facts.

(** * Further properties of the components *)

Section SalesAutoDeduction_more.
Import SalesAutoDeduction.

Lemma seq_refl (a : string) : JS.seq a a = true.
Proof. apply String.eqb_refl. Qed.

Lemma toggle_keeps_id i r :
  id (if JS.seq (id r) i then flip r else r) = id r.
Proof. by destruct (JS.seq (id r) i). Qed.

(** [handleDeleteRule] removes the rules with the given id, all of them and
    nothing else: no rule with that id is left, the rules kept are a
    sublist of the old ones (same order), what went is exactly the rules
    with that id, a second delete changes nothing more, a delete of an id
    that no rule has changes nothing at all, and the form is not touched. *)
Theorem handleDeleteRule_removes_exactly_that_id (i : string) (st : State) :
  let st' := handleDeleteRule i st in
  Forall (fun rule => JS.seq (id rule) i = false) (rules st')
  /\ sublist (rules st') (rules st)
  /\ (length (rules st')
      + length (List.filter (fun rule => JS.seq (id rule) i) (rules st))
      = length (rules st))%nat
  /\ handleDeleteRule i st' = st'
  /\ (if existsb (fun rule => JS.seq (id rule) i) (rules st) then True else st' = st)
  /\ newRule st' = newRule st.
Proof.
  destruct st as [rs nr]. unfold handleDeleteRule; simpl.
  repeat split.
  - induction rs as [|r rs IH]; simpl; [constructor|].
    destruct (JS.seq (id r) i) eqn:E; simpl; [exact IH|].
    constructor; [exact E | exact IH].
  - induction rs as [|r rs IH]; simpl; [constructor|].
    destruct (JS.seq (id r) i); simpl; by constructor.
  - induction rs as [|r rs IH]; simpl; [done|].
    destruct (JS.seq (id r) i); simpl; lia.
  - f_equal. induction rs as [|r rs IH]; simpl; [done|].
    destruct (JS.seq (id r) i) eqn:E; simpl; [exact IH|].
    rewrite E. simpl. by f_equal.
  - destruct (existsb _ rs) eqn:E; [done|]. f_equal.
    induction rs as [|r rs IH]; simpl in *; [done|].
    apply orb_false_iff in E as [E1 E2]. rewrite E1. simpl. f_equal. by apply IH.
Qed.

(** Deleting the rule that was just added gives the rules list back,
    provided the id the clock gave was not the id of a rule already there. *)
Theorem handleAddRule_then_delete (now : string) (st : State) :
  Forall (fun rule => JS.seq (id rule) now = false) (rules st) ->
  rules (handleDeleteRule now (handleAddRule now st)) = rules st.
Proof.
  intros Hfresh.
  assert (Hkeep : List.filter (fun rule => negb (JS.seq (id rule) now)) (rules st)
                  = rules st).
  { induction Hfresh as [|r rs Hr _ IH]; simpl; [done|]. rewrite Hr. simpl. by f_equal. }
  unfold handleAddRule.
  destruct (JS.truthy _ && JS.gt _ _); simpl; [|exact Hkeep].
  rewrite List.filter_app, Hkeep. simpl. rewrite seq_refl. simpl. apply app_nil_r.
Qed.

Lemma handleAddRule_then_delete_witness :
  rules (handleDeleteRule "1700000000000" (handleAddRule "1700000000000" Samples.rules_with_form))
  = rules Samples.rules_with_form.
Proof.
  apply (handleAddRule_then_delete "1700000000000" Samples.rules_with_form).
  repeat constructor.
Defined.

(** A second click on Add Rule right after the first adds nothing: a
    successful add blanks the form, and a blank form is refused. *)
Theorem handleAddRule_twice (now now' : string) (st : State) :
  handleAddRule now' (handleAddRule now st) = handleAddRule now st.
Proof.
  remember (handleAddRule now st) as st1 eqn:H1. unfold handleAddRule in H1.
  destruct (JS.truthy (new_name (newRule st))
            && JS.gt (new_percentage (newRule st)) 0%float) eqn:E; subst st1.
  - reflexivity.
  - unfold handleAddRule. by rewrite E.
Qed.

(** Toggle and delete go together as expected: deleting an id forgets a
    toggle of that id, toggling one id and deleting another commute, and so
    do two toggles. *)
Theorem toggle_delete_compose (i j : string) (st : State) :
  handleDeleteRule i (handleToggleRule i st) = handleDeleteRule i st
  /\ handleDeleteRule j (handleToggleRule i st) = handleToggleRule i (handleDeleteRule j st)
  /\ handleToggleRule i (handleToggleRule j st) = handleToggleRule j (handleToggleRule i st).
Proof.
  destruct st as [rs nr]. unfold handleDeleteRule, handleToggleRule, toggleRules; simpl.
  repeat split; f_equal.
  - induction rs as [|r rs IH]; simpl; [done|].
    rewrite toggle_keeps_id.
    destruct (JS.seq (id r) i) eqn:E; simpl; [exact IH | by f_equal].
  - induction rs as [|r rs IH]; simpl; [done|].
    rewrite toggle_keeps_id.
    destruct (JS.seq (id r) j); simpl; [exact IH | by f_equal].
  - rewrite !map_map. apply map_ext. intros r.
    rewrite !toggle_keeps_id.
    destruct (JS.seq (id r) i) eqn:Ei, (JS.seq (id r) j) eqn:Ej; simpl;
      rewrite ?Ei, ?Ej; reflexivity.
Qed.

Lemma filter_partition_length {A} (p : A -> bool) (l : list A) :
  (length (List.filter p l) + length (List.filter (fun x => negb (p x)) l)
   = length l)%nat.
Proof.
  induction l as [|x l IH]; simpl; [done|]. destruct (p x); simpl; lia.
Qed.

(** The summary panel: active and inactive rules add up to all the rules;
    adding a rule leaves the number of active rules and the total deduction
    rate as they were, since the new rule is inactive; a toggle keeps the
    number of rules, a delete never raises a count. *)
Theorem summary_counts (now i : string) (st : State) :
  (activeRules st + inactiveRules st = length (rules st))%nat
  /\ activeRules (handleAddRule now st) = activeRules st
  /\ totalDeductionRate (handleAddRule now st) = totalDeductionRate st
  /\ (activeRules (handleToggleRule i st) + inactiveRules (handleToggleRule i st)
      = activeRules st + inactiveRules st)%nat
  /\ (activeRules (handleDeleteRule i st) <= activeRules st)%nat
  /\ (inactiveRules (handleDeleteRule i st) <= inactiveRules st)%nat.
Proof.
  unfold activeRules, inactiveRules, totalDeductionRate.
  assert (Hadd : List.filter active (rules (handleAddRule now st))
                 = List.filter active (rules st)).
  { unfold handleAddRule. destruct (JS.truthy _ && JS.gt _ _); simpl; [|done].
    rewrite List.filter_app. simpl. apply app_nil_r. }
  split; [apply filter_partition_length|].
  split; [by rewrite Hadd|]. split; [by rewrite Hadd|].
  split.
  - rewrite !filter_partition_length. simpl. unfold toggleRules. apply length_map.
  - clear Hadd. destruct st as [rs nr]; simpl. split.
    + induction rs as [|r rs IH]; simpl; [done|].
      destruct (JS.seq (id r) i), (active r) eqn:Ea; simpl; rewrite ?Ea; simpl; lia.
    + induction rs as [|r rs IH]; simpl; [done|].
      destruct (JS.seq (id r) i), (active r) eqn:Ea; simpl; rewrite ?Ea; simpl; lia.
Qed.

End SalesAutoDeduction_more.

Section OrderItems_facts.
Import SupplierAPIIntegrations.

Lemma filter_index_below {A} (index : nat) (l : list A) : forall k,
  (index < k)%nat -> filter_index (fun i => negb (i =? index)%nat) k l = l.
Proof.
  induction l as [|x l IH]; intros k Hk; simpl; [done|].
  destruct (Nat.eqb_spec k index) as [->|_]; [lia|]. simpl.
  f_equal. apply IH. lia.
Qed.

Lemma filter_index_delete_from {A} (l : list A) : forall index k,
  filter_index (fun i => negb (i =? k + index)%nat) k l = delete index l.
Proof.
  induction l as [|x l IH]; intros index k; simpl; [by destruct index|].
  destruct index as [|index].
  - rewrite Nat.add_0_r, Nat.eqb_refl. simpl. apply filter_index_below. lia.
  - destruct (Nat.eqb_spec k (k + S index)) as [E|_]; [lia|]. simpl. f_equal.
    replace (k + S index)%nat with (S k + index)%nat by lia. apply IH.
Qed.

Lemma filter_index_delete {A} (index : nat) (l : list A) :
  filter_index (fun i => negb (i =? index)%nat) 0 l = delete index l.
Proof. apply (filter_index_delete_from l index 0). Qed.

Lemma imap_unchanged {A} (l : list A) : forall g : nat -> A -> A,
  (forall i x, g i x = x) -> imap g l = l.
Proof.
  induction l as [|x l IH]; intros g Hg; [done|].
  rewrite imap_cons, Hg. f_equal. apply IH. intros i y. apply Hg.
Qed.

Lemma imap_alter {A} (f : A -> A) (l : list A) : forall index,
  imap (fun i x => if (i =? index)%nat then f x else x) l = alter f index l.
Proof.
  induction l as [|x l IH]; intros index; [done|].
  rewrite imap_cons. destruct index as [|index]; simpl.
  - f_equal. by apply imap_unchanged.
  - f_equal. apply IH.
Qed.

Lemma delete_last {A} (l : list A) (x : A) : delete (length l) (l ++ [x]) = l.
Proof. induction l as [|y l IH]; simpl; [done|]. by f_equal. Qed.

Lemma delete_past_end {A} (l : list A) : forall index,
  (length l <= index)%nat -> delete index l = l.
Proof.
  induction l as [|x l IH]; intros [|index] Hlen; simpl in *; try done; try lia.
  f_equal. apply IH. lia.
Qed.

Lemma setOrderData_same (s : State) : setOrderData (with_items (fun l => l)) s = s.
Proof. destruct s as [a b c d e f g h i j k l od n]. by destruct od. Qed.

(** [removeOrderItem] deletes the item at [index] and nothing else: the
    items before it stay in place, the items after it move up by one, the
    list is one shorter; an [index] past the end removes nothing. *)
Theorem removeOrderItem_deletes_at_index (index : nat) (s : State) :
  let before := items (orderData s) in
  let after := items (orderData (removeOrderItem index s)) in
  removeOrderItem index s = setOrderData (with_items (delete index)) s
  /\ (forall j, after !! j = if decide (j < index)%nat then before !! j
                             else before !! S j)
  /\ length after = (if (index <? length before)%nat then length before - 1
                     else length before)%nat
  /\ (if (index <? length before)%nat then True else removeOrderItem index s = s).
Proof.
  intros before after.
  assert (Heq : removeOrderItem index s = setOrderData (with_items (delete index)) s).
  { unfold removeOrderItem, setOrderData, with_items. by rewrite filter_index_delete. }
  assert (Hafter : after = delete index before).
  { unfold after. by rewrite Heq. }
  split; [exact Heq|]. split; [|split].
  - intros j. rewrite Hafter. destruct (decide (j < index)%nat).
    + by apply list_lookup_delete_lt.
    + apply list_lookup_delete_ge. lia.
  - rewrite Hafter. destruct (Nat.ltb_spec index (length before)) as [Hlt|Hge].
    + apply length_delete. by apply lookup_lt_is_Some.
    + by rewrite delete_past_end.
  - destruct (Nat.ltb_spec index (length before)) as [Hlt|Hge]; [done|].
    rewrite Heq. rewrite <- (setOrderData_same s) at 2.
    unfold setOrderData, with_items. fold before. by rewrite delete_past_end.
Qed.

(** [updateOrderItem] rewrites the item at [index] and no other: the list
    keeps its length, every other position keeps its item, and the item at
    [index] keeps its product id and its notes whatever the edit; an
    [index] past the end edits nothing. *)
Theorem updateOrderItem_edits_at_index (index : nat) (c : ItemChange) (s : State) :
  let before := items (orderData s) in
  let after := items (orderData (updateOrderItem index c s)) in
  length after = length before
  /\ (forall j, after !! j = if decide (j = index) then changed c <$> before !! j
                             else before !! j)
  /\ (forall item, item_product_id (changed c item) = item_product_id item
                   /\ item_notes (changed c item) = item_notes item)
  /\ (if (index <? length before)%nat then True else updateOrderItem index c s = s).
Proof.
  intros before after.
  assert (Hafter : after = alter (changed c) index before).
  { unfold after, updateOrderItem; simpl. apply imap_alter. }
  split; [by rewrite Hafter, length_alter|]. split; [|split].
  - intros j. rewrite Hafter. destruct (decide (j = index)) as [->|Hne].
    + apply list_lookup_alter_eq.
    + by apply list_lookup_alter_ne.
  - intros item. by destruct c.
  - destruct (Nat.ltb_spec index (length before)) as [Hlt|Hge]; [done|].
    rewrite <- (setOrderData_same s) at 2.
    unfold updateOrderItem, setOrderData, with_items. fold before.
    rewrite imap_alter.
    assert (Hsame : alter (changed c) index before = before).
    { apply list_eq. intros j. destruct (decide (index = j)) as [<-|Hne].
      - rewrite list_lookup_alter_eq. by rewrite (lookup_ge_None_2 before index).
      - by apply list_lookup_alter_ne. }
    by rewrite Hsame.
Qed.

(** [addOrderItem] puts one default line (quantity 1, unit kg, price 0) at
    the end; removing that line again gives the state back; and with an
    item in the list the Place Order button of the open dialog is live
    exactly when nothing is loading. *)
Theorem addOrderItem_appends_default_line (w : World) :
  let s := ui w in
  let before := items (orderData s) in
  let after := items (orderData (addOrderItem s)) in
  after
  = before ++ [ {| item_product_id := ""; item_name := ""; quantity := 1%float;
                   unit := "kg"; unit_price := 0%float; item_notes := "" |} ]
  /\ length after = S (length before)
  /\ removeOrderItem (length before) (addOrderItem s) = s
  /\ enabled DialogPlaceOrder (on_ui addOrderItem w)
     = showOrderDialog s && negb (loading s).
Proof.
  intros s before after. split; [reflexivity|].
  split; [unfold after, before; simpl; rewrite length_app; simpl; lia|]. split.
  - rewrite <- (setOrderData_same s) at 2.
    unfold removeOrderItem, addOrderItem, setOrderData, with_items; simpl.
    fold before. by rewrite filter_index_delete, delete_last.
  - simpl. fold s. fold before. rewrite length_app. simpl.
    replace (length before + 1 =? 0)%nat with false
      by (symmetry; apply Nat.eqb_neq; lia).
    by rewrite orb_false_r.
Qed.

End OrderItems_facts.

Section SupplierAPIIntegrations_invariants.
Import SupplierAPIIntegrations.

Lemma run_invariant (P : World -> Prop) :
  (forall w e, P w -> P (step w e)) ->
  forall events w, P w -> P (run events w).
Proof.
  intros Hstep events. induction events as [|e events IH]; intros w Hw; [done|].
  simpl. apply IH. by apply Hstep.
Qed.

Lemma filter_remove1_true (p : Call -> bool) (c : Call) (l : list Call) :
  p c = true -> c ∈ l ->
  S (length (List.filter p (remove1 c l))) = length (List.filter p l).
Proof.
  intros Hp Hin. induction l as [|d l IH]; [by apply not_elem_of_nil in Hin|].
  simpl. destruct (decide (d = c)) as [->|Hne].
  - by rewrite Hp.
  - apply elem_of_cons in Hin as [->|Hin]; [done|].
    simpl. destruct (p d); simpl; rewrite <- (IH Hin); done.
Qed.

Lemma filter_remove1_false (p : Call -> bool) (c : Call) (l : list Call) :
  p c = false -> List.filter p (remove1 c l) = List.filter p l.
Proof.
  intros Hp. induction l as [|d l IH]; [done|].
  simpl. destruct (decide (d = c)) as [->|Hne].
  - by rewrite Hp.
  - simpl. destruct (p d); by rewrite IH.
Qed.

Lemma single_flight_fetch (w : World) (c : Call) (r : Request) :
  sets_loading c = true -> loading (ui w) = false -> single_flight w ->
  single_flight (fetch c r (on_ui (setLoading true) w)).
Proof.
  unfold single_flight. intros Hc Hl Hw. simpl.
  rewrite List.filter_app, length_app. simpl. rewrite Hc, Hw, Hl. done.
Qed.

Lemma single_flight_reply (w : World) (c : Call) (s' : State) (out : list Request) :
  sets_loading c = true -> bool_decide (c ∈ inflight w) = true ->
  loading s' = false -> single_flight w ->
  single_flight {| ui := s'; inflight := remove1 c (inflight w); sent := out |}.
Proof.
  unfold single_flight. intros Hc Hin Hl Hw. simpl. rewrite Hl.
  apply bool_decide_eq_true in Hin.
  pose proof (filter_remove1_true sets_loading c (inflight w) Hc Hin) as H.
  destruct (loading (ui w)); lia.
Qed.

Lemma single_flight_step (w : World) (e : Event) :
  single_flight w -> single_flight (step w e).
Proof.
  intros Hw. unfold step. destruct (enabled e w) eqn:Hen; [|done].
  destruct e as [n| | |sid|sid|sid| |sid|k v| | | |t|k v| |i c|i| |
                 |r|r|r|sid r|r|sid r];
    try exact Hw; simpl in Hen.
  - (* CardTest *)
    apply andb_true_iff in Hen as [_ Hl]. apply negb_true_iff in Hl.
    by apply single_flight_fetch.
  - (* CardViewProducts *)
    apply andb_true_iff in Hen as [_ Hl]. apply negb_true_iff in Hl.
    by apply single_flight_fetch.
  - (* TabConfigure *)
    apply andb_true_iff in Hen as [_ Hl]. apply negb_true_iff in Hl.
    apply orb_false_iff in Hl as [_ Hl]. by apply single_flight_fetch.
  - (* DialogConfigure *)
    apply andb_true_iff in Hen as [_ Hl]. apply negb_true_iff in Hl.
    apply orb_false_iff in Hl as [_ Hl]. by apply single_flight_fetch.
  - (* DialogPlaceOrder *)
    apply andb_true_iff in Hen as [_ Hl]. apply negb_true_iff in Hl.
    apply orb_false_iff in Hl as [Hl _]. by apply single_flight_fetch.
  - (* GotSuppliers *)
    apply single_flight_reply; [done|exact Hen| |exact Hw]. by destruct r.
  - (* GotOrders *)
    unfold single_flight in *. simpl.
    rewrite filter_remove1_false by done. by destruct r.
  - (* GotConfigure *)
    apply single_flight_reply; [done|exact Hen| |exact Hw]. by destruct r.
  - (* GotProducts *)
    apply single_flight_reply; [done|exact Hen| |exact Hw]. by destruct r.
  - (* GotOrder *)
    apply bool_decide_eq_true in Hen.
    pose proof (filter_remove1_true sets_loading PlaceOrder (inflight w) eq_refl Hen) as H.
    unfold single_flight in *.
    destruct r as [data|detail|]; simpl;
      rewrite ?List.filter_app, ?length_app; simpl;
      destruct (loading (ui w)); lia.
  - (* GotTest *)
    apply single_flight_reply; [done|exact Hen| |exact Hw]. by destruct r.
Qed.

(** From mounting on, whatever the clicks and replies: the number of
    awaited calls that set [loading] is 1 while [loading] is set and 0
    otherwise, so no two of load-suppliers, configure, get-products,
    place-order and test-connection are ever in flight together. *)
Theorem one_loading_request_at_a_time (events : list Event) :
  let w := run events mounted in
  length (List.filter sets_loading (inflight w))
  = if loading (ui w) then 1%nat else 0%nat.
Proof.
  apply (run_invariant single_flight single_flight_step events mounted).
  reflexivity.
Qed.

Lemma payload_inv_step (w : World) (e : Event) :
  payload_inv w -> payload_inv (step w e).
Proof.
  unfold payload_inv. intros Hw. unfold step.
  destruct (enabled e w) eqn:Hen; [|done].
  destruct e as [n| | |sid|sid|sid| |sid|k v| | | |t|k v| |i c|i| |
                 |r|r|r|sid r|r|sid r];
    try exact Hw; simpl in Hen; simpl;
    rewrite ?forallb_app, ?Hw; simpl; try reflexivity.
  - (* TabConfigure *)
    apply andb_true_iff in Hen as [_ Hen]. apply negb_true_iff in Hen.
    apply orb_false_iff in Hen as [Hen _]. apply orb_false_iff in Hen as [_ Hen].
    apply negb_false_iff in Hen. unfold carries_payload; simpl. by rewrite Hen.
  - (* DialogConfigure *)
    apply andb_true_iff in Hen as [_ Hen]. apply negb_true_iff in Hen.
    apply orb_false_iff in Hen as [Hen _].
    apply negb_false_iff in Hen. unfold carries_payload; simpl. by rewrite Hen.
  - (* DialogPlaceOrder *)
    apply andb_true_iff in Hen as [_ Hen]. apply negb_true_iff in Hen.
    apply orb_false_iff in Hen as [_ Hen].
    unfold carries_payload; simpl.
    destruct (items (orderData (ui w))) as [|item rest] eqn:Hitems; [discriminate Hen|].
    destruct (orderType (ui w)); simpl; by rewrite Hitems.
  - (* GotOrder *)
    destruct r as [data|detail|]; simpl; rewrite ?forallb_app, ?Hw; reflexivity.
Qed.

(** From mounting on, whatever the clicks and replies: every configuration
    request the client sends has an API key that is not blank, and every
    order it sends, on any channel, has at least one item. *)
Theorem requests_sent_carry_payload (events : list Event) :
  forallb carries_payload (sent (run events mounted)) = true.
Proof.
  apply (run_invariant payload_inv payload_inv_step events mounted).
  reflexivity.
Qed.

Lemma plain_items_json (its : list OrderItem) :
  Forall (fun item => item_product_id item = "" /\ item_notes item = "") its ->
  forallb blank_item_json (map item_json its) = true.
Proof.
  induction 1 as [|item its [Hp Hn] _ IH]; [done|].
  simpl. unfold blank_item_json at 1. simpl. by rewrite Hp, Hn.
Qed.

Lemma plain_form_request (s : State) :
  plain_form (orderData s) -> plain_request (placeOrder_request s) = true.
Proof.
  intros [Hu Hits]. apply plain_items_json in Hits.
  unfold plain_request, placeOrder_request; simpl.
  destruct (orderType s); simpl; by rewrite Hu, Hits.
Qed.

Lemma plain_filter_index (keep : nat -> bool) (its : list OrderItem) : forall k,
  Forall (fun item => item_product_id item = "" /\ item_notes item = "") its ->
  Forall (fun item => item_product_id item = "" /\ item_notes item = "")
    (filter_index keep k its).
Proof.
  induction its as [|item its IH]; intros k Hits; [constructor|].
  apply Forall_cons in Hits as [Hitem Hits]. simpl.
  destruct (keep k); [constructor; [done|]|]; by apply IH.
Qed.

Lemma plain_inv_step (w : World) (e : Event) :
  plain_inv w -> plain_inv (step w e).
Proof.
  unfold plain_inv. intros [Hform Hsent]. unfold step.
  destruct (enabled e w) eqn:Hen; [|done].
  pose proof Hform as [Hu Hits].
  destruct e as [n| | |sid|sid|sid| |sid|k v| | | |t|k v| |i c|i| |
                 |r|r|r|sid r|r|sid r];
    try (split; [exact Hform | exact Hsent]);
    try (split; [exact Hform | simpl; by rewrite forallb_app, Hsent]).
  - (* AddItem *)
    split; [|exact Hsent]. split; [exact Hu|]. simpl.
    apply Forall_app. split; [exact Hits | by repeat constructor].
  - (* EditItem *)
    split; [|exact Hsent]. split; [exact Hu|]. simpl.
    rewrite (imap_alter (changed c)). apply Forall_alter; [exact Hits|].
    intros item _ [Hp Hn]. by destruct c.
  - (* RemoveItem *)
    split; [|exact Hsent]. split; [exact Hu|]. simpl. by apply plain_filter_index.
  - (* DialogPlaceOrder *)
    split; [exact Hform|]. simpl. rewrite forallb_app, Hsent. simpl.
    by rewrite (plain_form_request (ui w) Hform).
  - (* GotSuppliers *) destruct r; by split.
  - (* GotOrders *) destruct r; by split.
  - (* GotConfigure *) destruct r; by split.
  - (* GotProducts *) destruct r; by split.
  - (* GotOrder *)
    destruct r as [data|detail|]; simpl.
    + split; [by split; [|constructor]|]. by rewrite forallb_app, Hsent.
    + by split.
    + by split.
  - (* GotTest *) destruct r; by split.
Qed.

(** What the order dialog can never send: no control writes [urgent], a
    line's product id or a line's notes, so from mounting on, whatever the
    clicks and replies, the form has [urgent] false and blank product ids
    and line notes, and so has every order request sent. *)
Theorem orders_sent_are_plain (events : list Event) :
  let w := run events mounted in
  plain_form (orderData (ui w)) /\ forallb plain_request (sent w) = true.
Proof.
  apply (run_invariant plain_inv plain_inv_step events mounted).
  split; [by split; [|constructor] | reflexivity].
Qed.

Lemma tested_inv_frame (w w' : World) (extra : list Request) :
  suppliers (ui w') = suppliers (ui w) ->
  List.filter is_load_suppliers (inflight w')
  = List.filter is_load_suppliers (inflight w) ->
  sent w' = sent w ++ extra ->
  Forall (tests_api_supplier (suppliers (ui w))) extra ->
  tested_inv w -> tested_inv w'.
Proof.
  unfold tested_inv. intros Hsup Hfl Hsent Hextra (Hall & Hone & Hempty).
  rewrite Hsup, Hfl, Hsent. split; [|by split].
  apply Forall_app. by split.
Qed.

Lemma filter_load_suppliers_snoc (l : list Call) (c : Call) :
  is_load_suppliers c = false ->
  List.filter is_load_suppliers (l ++ [c]) = List.filter is_load_suppliers l.
Proof. intros Hc. rewrite List.filter_app. simpl. rewrite Hc. apply app_nil_r. Qed.

Ltac not_a_test :=
  repeat constructor; intros ?sid' ?H; simpl in H; discriminate H.

Lemma tested_inv_step (w : World) (e : Event) :
  tested_inv w -> tested_inv (step w e).
Proof.
  intros Hw. unfold step. destruct (enabled e w) eqn:Hen; [|done].
  destruct e as [n| | |sid|sid|sid| |sid|k v| | | |t|k v| |i c|i| |
                 |r|r|r|sid r|r|sid r];
    try (apply (tested_inv_frame w _ []);
         [reflexivity | reflexivity | by rewrite app_nil_r | constructor | exact Hw]).
  - (* CardTest *)
    apply (tested_inv_frame w _ [testConnection_request sid]);
      [reflexivity | by apply filter_load_suppliers_snoc | reflexivity | | exact Hw].
    repeat constructor. intros sid' H. simpl in H. injection H as H.
    change (sid = sid') in H. subst sid'.
    simpl in Hen. apply andb_true_iff in Hen as [Hen _].
    by apply andb_true_iff in Hen as [_ Hen].
  - (* CardViewProducts *)
    apply (tested_inv_frame w _ [getProducts_request sid None]);
      [reflexivity | by apply filter_load_suppliers_snoc | reflexivity | | exact Hw].
    not_a_test.
  - (* TabConfigure *)
    apply (tested_inv_frame w _ [configure_request (ui w)]);
      [reflexivity | by apply filter_load_suppliers_snoc | reflexivity | | exact Hw].
    not_a_test.
  - (* DialogConfigure *)
    apply (tested_inv_frame w _ [configure_request (ui w)]);
      [reflexivity | by apply filter_load_suppliers_snoc | reflexivity | | exact Hw].
    not_a_test.
  - (* DialogPlaceOrder *)
    apply (tested_inv_frame w _ [placeOrder_request (ui w)]);
      [reflexivity | by apply filter_load_suppliers_snoc | reflexivity | | exact Hw].
    not_a_test.
  - (* GotSuppliers: the list was empty, so no test was sent before *)
    destruct Hw as (Hall & Hone & Hempty).
    simpl in Hen. apply bool_decide_eq_true in Hen.
    pose proof (filter_remove1_true is_load_suppliers LoadSuppliers (inflight w)
                  eq_refl Hen) as Hcount.
    assert (Hnone : List.filter is_load_suppliers (remove1 LoadSuppliers (inflight w)) = []).
    { apply length_zero_iff_nil. lia. }
    assert (Hnil : suppliers (ui w) = []).
    { apply Hempty. intros E. rewrite E in Hcount. discriminate Hcount. }
    rewrite Hnil in Hall.
    assert (Hnotest : forall sups, Forall (tests_api_supplier sups) (sent w)).
    { intros sups. eapply Forall_impl; [exact Hall|].
      intros req Hr sid' E. specialize (Hr sid' E). discriminate Hr. }
    unfold tested_inv. simpl. rewrite Hnone. simpl.
    split; [apply Hnotest|]. split; [lia|done].
  - (* GotOrders *)
    apply (tested_inv_frame w _ []);
      [by destruct r | by apply filter_remove1_false | by rewrite app_nil_r
      | constructor | exact Hw].
  - (* GotConfigure *)
    apply (tested_inv_frame w _ []);
      [by destruct r | by apply filter_remove1_false | by rewrite app_nil_r
      | constructor | exact Hw].
  - (* GotProducts *)
    apply (tested_inv_frame w _ []);
      [by destruct r | by apply filter_remove1_false | by rewrite app_nil_r
      | constructor | exact Hw].
  - (* GotOrder *)
    destruct r as [data|detail|].
    + apply (tested_inv_frame w _ [loadOrders_request]);
        [reflexivity | | reflexivity | not_a_test | exact Hw].
      simpl. rewrite filter_load_suppliers_snoc by done.
      by apply filter_remove1_false.
    + apply (tested_inv_frame w _ []);
        [reflexivity | by apply filter_remove1_false | by rewrite app_nil_r
        | constructor | exact Hw].
    + apply (tested_inv_frame w _ []);
        [reflexivity | by apply filter_remove1_false | by rewrite app_nil_r
        | constructor | exact Hw].
  - (* GotTest *)
    apply (tested_inv_frame w _ []);
      [by destruct r | by apply filter_remove1_false | by rewrite app_nil_r
      | constructor | exact Hw].
Qed.

(** From mounting on, whatever the clicks and replies: every [fetch] that
    [testConnection] has made is the test of a supplier that the loaded
    supplier list shows with integration type ['api'].  (What address a
    [fetch] of [getProducts] reaches is for [new URL] to say, and is not
    decided here: that request is no call of [testConnection].) *)
Theorem connection_tests_sent_for_api_suppliers (events : list Event) :
  let w := run events mounted in
  Forall (tests_api_supplier (suppliers (ui w))) (sent w).
Proof.
  intros w.
  assert (Hinv : tested_inv w).
  { apply (run_invariant tested_inv tested_inv_step events mounted).
    split; [not_a_test|]. split; [simpl; lia | done]. }
  apply Hinv.
Qed.

End SupplierAPIIntegrations_invariants.

Section SupplierAPIIntegrations_replies.
Import SupplierAPIIntegrations.

Lemma or_else_truthy (detail fallback : string) :
  JS.truthy fallback = true -> JS.truthy (JS.or_else detail fallback) = true.
Proof. intros H. unfold JS.or_else. by destruct detail. Qed.

(** A request that fails, by a response that is not OK (with or without a
    [detail]) or by an exception, always ends with an error alert on screen
    and [loading] off, and loses nothing the user typed: order form,
    configuration form and open dialogs stay, as do the loaded products and
    suppliers.  This holds for [loadSuppliers], [configureSupplier],
    [getProducts], [placeOrder] and [testConnection]; a failed [placeOrder]
    sends nothing further. *)
Theorem failed_requests_show_an_error (cause : option string) (supplierId : string)
    (w : World) :
  let s := ui w in
  let kept s' :=
    orderData s' = orderData s /\ orderType s' = orderType s
    /\ configData s' = configData s /\ configSupplier s' = configSupplier s
    /\ showOrderDialog s' = showOrderDialog s
    /\ showConfigDialog s' = showConfigDialog s
    /\ products s' = products s /\ suppliers s' = suppliers s in
  Forall (fun s' => shown (error s') = true /\ loading s' = false /\ kept s')
    [ loadSuppliers_reply (failed cause) s;
      configureSupplier_reply (failed cause) s;
      getProducts_reply supplierId (failed cause) s;
      ui (placeOrder_reply (failed cause) w);
      testConnection_reply supplierId (failed cause) s ]
  /\ sent (placeOrder_reply (failed cause) w) = sent w.
Proof.
  intros s kept. unfold kept.
  destruct cause as [detail|]; simpl; (split; [|reflexivity]);
    repeat constructor; simpl; by apply or_else_truthy.
Qed.

(** An order that the server accepts: the success alert shows, the form is
    emptied, the dialog closes, the order list is asked for again with one
    more request, and Place Order takes no further click, so the order
    cannot go out twice. *)
Theorem order_success_resets_form (order_id : string) (w : World) :
  let w' := placeOrder_reply (Ok order_id) w in
  shown (success (ui w')) = true
  /\ orderData (ui w') = emptyOrderData
  /\ showOrderDialog (ui w') = false
  /\ loading (ui w') = false
  /\ sent w' = sent w ++ [loadOrders_request]
  /\ inflight w' = inflight w ++ [LoadOrders]
  /\ step w' DialogPlaceOrder = w'.
Proof. intros w'. by repeat split. Qed.

(** A configuration that the server accepts: the API key and the other
    entries are wiped from the form, the supplier choice is cleared, the
    dialog closes, and neither Configure button takes a click until a key
    is typed again. *)
Theorem configure_success_clears_form (supplier : string) (w : World) :
  let w' := on_ui (configureSupplier_reply (Ok supplier)) w in
  shown (success (ui w')) = true
  /\ configData (ui w') = emptyConfigData
  /\ configSupplier (ui w') = ""
  /\ showConfigDialog (ui w') = false
  /\ loading (ui w') = false
  /\ step w' DialogConfigure = w'
  /\ step w' TabConfigure = w'.
Proof.
  intros w'. repeat split. unfold step. simpl. by rewrite andb_false_r.
Qed.

(** The five buttons that send a request take one click at a time: while
    [loading] is set none of them does anything, and so a second click on
    the same button right after the first sends nothing more. *)
Theorem request_buttons_take_one_click (supplierId : string) (w : World) :
  let buttons := [ CardTest supplierId; CardViewProducts supplierId;
                   TabConfigure; DialogConfigure; DialogPlaceOrder ] in
  (if loading (ui w) then Forall (fun e => step w e = w) buttons else True)
  /\ Forall (fun e => step (step w e) e = step w e) buttons.
Proof.
  intros buttons. split.
  - destruct (loading (ui w)) eqn:Hl; [|done].
    repeat constructor; unfold step; simpl; rewrite Hl; simpl;
      by rewrite ?orb_true_r, ?andb_false_r.
  - repeat constructor; unfold step at 2 3;
      match goal with |- context [enabled ?e w] => destruct (enabled e w) eqn:Hen end;
      try (unfold step; by rewrite Hen);
      unfold step; simpl; by rewrite ?orb_true_r, ?andb_false_r.
Qed.

Lemma step_cells (w : World) (e : Event) :
  (suppliers (ui (step w e)) = suppliers (ui w)
   \/ exists data, e = GotSuppliers (Ok data) /\ suppliers (ui (step w e)) = data)
  /\ (orders (ui (step w e)) = orders (ui w)
      \/ exists data, e = GotOrders (Ok data) /\ orders (ui (step w e)) = data)
  /\ (selectedSupplier (ui (step w e)) = selectedSupplier (ui w)
      \/ exists supplierId data,
           e = GotProducts supplierId (Ok data)
           /\ selectedSupplier (ui (step w e)) = supplierId).
Proof.
  unfold step. destruct (enabled e w); [|by repeat split; left].
  destruct e as [n| | |sid|sid|sid| |sid|k v| | | |t|k v| |i c|i| |
                 |r|r|r|sid r|r|sid r];
    try (by repeat split; left);
    destruct r as [data|detail|]; try (by repeat split; left).
  - split; [right; by exists data|]. by split; left.
  - split; [by left|]. split; [right; by exists data | by left].
  - split; [by left|]. split; [by left|]. right. by exists sid, data.
Qed.

(** The loaded lists change only on their own reply: the suppliers on an OK
    reply to [loadSuppliers], the orders on an OK reply to [loadOrders], the
    selected supplier on an OK reply to [getProducts] (it becomes the
    supplier asked for); and a [loadOrders] that fails changes nothing on
    screen, not even an error. *)
Theorem lists_change_on_their_reply_only (w : World) (e : Event)
    (cause : option string) :
  ((suppliers (ui (step w e)) = suppliers (ui w)
    \/ exists data, e = GotSuppliers (Ok data) /\ suppliers (ui (step w e)) = data)
   /\ (orders (ui (step w e)) = orders (ui w)
       \/ exists data, e = GotOrders (Ok data) /\ orders (ui (step w e)) = data)
   /\ (selectedSupplier (ui (step w e)) = selectedSupplier (ui w)
       \/ exists supplierId data,
            e = GotProducts supplierId (Ok data)
            /\ selectedSupplier (ui (step w e)) = supplierId))
  /\ ui (step w (GotOrders (failed cause))) = ui w.
Proof.
  split; [apply step_cells|].
  unfold step. destruct (enabled _ w); [|done]. by destruct cause.
Qed.

End SupplierAPIIntegrations_replies.

Section SetupWizard_more.
Import SetupWizard.

(** From mounting on, whatever the clicks and replies: of the requests
    whose handler sets [loading] (all but the template downloads) the
    wizard awaits one at most, and its [loading] flag is set exactly while
    it does. *)
Theorem wizard_loading_iff_request_awaited (events : list Event) :
  let w := run events mounted in
  length (List.filter sets_loading (inflight w))
  = if loading (ui w) then 1%nat else 0%nat.
Proof.
  intros w. by apply (wizard_inv_run events mounted wizard_inv_mounted).
Qed.

Lemma wizard_offline_settle (before after : World) :
  wizard_offline after -> wizard_offline (settle before after).
Proof. unfold wizard_offline. by rewrite ui_settle, inflight_settle. Qed.

Lemma wizard_offline_step (w : World) (e : Event) :
  wizard_offline w -> wizard_offline (step w e).
Proof.
  intros Hw. unfold step. destruct (enabled e w) eqn:Hen; [|done].
  apply wizard_offline_settle. pose proof Hw as [Hs Hfl].
  assert (Hnot : forall p, sets_loading p = true ->
                           bool_decide (p ∈ inflight w) = true -> False).
  { intros p Hp Hin. apply bool_decide_eq_true in Hin.
    pose proof (awaited_none p (inflight w) Hfl Hin) as Hp'. congruence. }
  destruct e as [|index| |ft| |has_text| | |ft|index|r|sv r|r|r|ft r];
    simpl in Hen; unfold fire.
  - (* ClickNext *)
    unfold handleNext, completeSetup. rewrite Hs. simpl.
    by destruct (activeStep (ui w) =? _)%Z.
  - (* ClickBack *) by split.
  - (* ClickReset *) by split.
  - (* OpenCsv *) by split.
  - (* CloseCsv *) by split.
  - (* ClickUpload *)
    unfold handleCsvUpload. by rewrite Hs.
  - (* CloseSuccess *) by split.
  - (* CloseError *) by split.
  - (* ClickDownload *)
    split; [done|]. simpl. rewrite List.filter_app. simpl. by rewrite app_nil_r.
  - (* Collapsed *) by split.
  - (* GotSession *) exfalso. by apply (Hnot CreateSession).
  - (* GotSave *) exfalso. by apply (Hnot (SaveStep sv)).
  - (* GotComplete *) exfalso. by apply (Hnot CompleteSetup).
  - (* GotCsv *) exfalso. by apply (Hnot CsvUpload).
  - (* GotTemplate *)
    assert (Hrecv : wizard_offline (receive (DownloadTemplate ft) w)).
    { split; [done|]. simpl. by rewrite awaited_remove1_false. }
    unfold downloadTemplate_reply. by destruct r.
Qed.

(** Without a session (its creation failed) the wizard saves nothing: the
    user can walk the steps and fetch the CSV templates, which need no
    session, but no click ever sends another request, no session appears,
    and Continue on the last step does nothing at all, without a
    message. *)
Theorem without_session_nothing_is_sent (w : World) (events : list Event) :
  has_session (ui w) = false -> List.filter sets_loading (inflight w) = [] ->
  let w' := run events w in
  List.filter sets_loading (inflight w') = [] /\ has_session (ui w') = false
  /\ (if (activeStep (ui w') =? 4)%Z then step w' ClickNext = w' else True).
Proof.
  intros Hs Hfl w'.
  assert (H : wizard_offline w').
  { unfold w'. clear w'. assert (Hw : wizard_offline w) by by split.
    clear Hs Hfl. revert w Hw.
    induction events as [|e events IH]; intros w Hw; [done|].
    simpl. apply IH. by apply wizard_offline_step. }
  destruct H as [Hs' Hfl']. split; [done|]. split; [done|].
  destruct (activeStep (ui w') =? 4)%Z eqn:E; [|done].
  unfold step. destruct (enabled ClickNext w'); [|done].
  unfold fire, handleNext, completeSetup.
  change (Z.of_nat (length steps) - 1)%Z with 4%Z. rewrite E, Hs'.
  unfold settle. by rewrite Z.eqb_refl.
Qed.

Lemma without_session_nothing_is_sent_witness :
  let w' := run [ClickNext; ClickDownload "menu_items"; ClickNext; ClickNext;
                 ClickNext; ClickNext]
              Samples.wizard_without_session in
  List.filter sets_loading (inflight w') = [] /\ has_session (ui w') = false
  /\ (if (activeStep (ui w') =? 4)%Z then step w' ClickNext = w' else True).
Proof.
  apply (without_session_nothing_is_sent Samples.wizard_without_session
           [ClickNext; ClickDownload "menu_items"; ClickNext; ClickNext;
            ClickNext; ClickNext]);
    reflexivity.
Defined.

(** With a session, Continue on one of the first four steps saves the step
    and then moves on by exactly one step whatever the server answers: a
    step the server refuses as invalid, a response that is not OK and a
    network failure all advance the wizard like a success. *)
Theorem continue_advances_whatever_the_reply (w : World) (r : Reply StepResult) :
  has_session (ui w) = true -> loading (ui w) = false -> inflight w = [] ->
  (0 <= activeStep (ui w) <= 3)%Z ->
  let w' := run [ClickNext; GotSave (activeStep (ui w)) r] w in
  inflight (step w ClickNext) = [SaveStep (activeStep (ui w))]
  /\ activeStep (ui w') = (activeStep (ui w) + 1)%Z
  /\ loading (ui w') = false
  /\ inflight w' = [].
Proof.
  intros Hs Hl Hfl Hrange w'.
  assert (Hnext : step w ClickNext
                  = {| ui := setLoading true (ui w);
                       inflight := [SaveStep (activeStep (ui w))];
                       leaving := leaving w; downloads := downloads w |}).
  { unfold step, enabled, step_on_screen, is_step. rewrite Hl.
    change (Z.of_nat (length steps)) with 5%Z.
    destruct (Z.leb_spec 0 (activeStep (ui w))); [|lia].
    destruct (Z.ltb_spec (activeStep (ui w)) 5); [|lia].
    simpl. unfold handleNext. change (Z.of_nat (length steps) - 1)%Z with 4%Z.
    destruct (Z.eqb_spec (activeStep (ui w)) 4) as [E|_]; [lia|].
    rewrite Hs. simpl. unfold in_switch.
    destruct (Z.leb_spec 0 (activeStep (ui w))); [|lia].
    destruct (Z.leb_spec (activeStep (ui w)) 4); [|lia].
    simpl. unfold send, settle. simpl. by rewrite Z.eqb_refl, Hfl. }
  unfold w'. simpl. rewrite Hnext. split; [done|].
  unfold step. simpl.
  rewrite bool_decide_eq_true_2 by (apply list_elem_of_singleton; done).
  rewrite ui_settle, inflight_settle. unfold handleNext_resume. simpl.
  rewrite decide_True by done.
  destruct r as [d| |]; simpl; [destruct (is_valid d)|..]; by repeat split.
Qed.

Lemma continue_advances_whatever_the_reply_witness :
  let w := Samples.wizard_with_session in
  let w' := run [ClickNext; GotSave (activeStep (ui w)) Samples.step_refused] w in
  inflight (step w ClickNext) = [SaveStep (activeStep (ui w))]
  /\ activeStep (ui w') = (activeStep (ui w) + 1)%Z
  /\ loading (ui w') = false
  /\ inflight w' = [].
Proof.
  apply (continue_advances_whatever_the_reply Samples.wizard_with_session
           Samples.step_refused); try reflexivity.
  vm_compute. split; discriminate.
Defined.

(** Reset Setup does not call off a save that is awaited: when its reply
    comes the wizard still moves on, so a reset during a save ends on the
    second step (index 1), not on the first. *)
Theorem reset_during_save_lands_on_second_step (w : World) (sv : Z)
    (r : Reply StepResult) :
  inflight w = [SaveStep sv] ->
  let w' := run [ClickReset; GotSave sv r] w in
  activeStep (ui (step w ClickReset)) = 0%Z
  /\ activeStep (ui w') = 1%Z
  /\ inflight w' = [].
Proof.
  intros Hfl w'.
  assert (Hreset : activeStep (ui (step w ClickReset)) = 0%Z
                   /\ inflight (step w ClickReset) = [SaveStep sv]).
  { unfold step. simpl enabled. cbv iota. by rewrite ui_settle, inflight_settle. }
  destruct Hreset as [Ha Hfl']. split; [done|].
  unfold w'. simpl. set (w1 := step w ClickReset) in *.
  unfold step. simpl enabled. rewrite Hfl'.
  rewrite bool_decide_eq_true_2 by (apply list_elem_of_singleton; done).
  rewrite ui_settle, inflight_settle. unfold fire, handleNext_resume. simpl.
  rewrite Hfl'. simpl remove1. rewrite decide_True by done.
  destruct r as [d| |]; simpl; [destruct (is_valid d)|..]; simpl;
    by rewrite Ha.
Qed.

Lemma reset_during_save_lands_on_second_step_witness :
  let w' := run [ClickReset; GotSave 1 Samples.step_refused] Samples.wizard_saving in
  activeStep (ui (step Samples.wizard_saving ClickReset)) = 0%Z
  /\ activeStep (ui w') = 1%Z
  /\ inflight w' = [].
Proof.
  apply (reset_during_save_lands_on_second_step Samples.wizard_saving 1
           Samples.step_refused).
  reflexivity.
Defined.

(** The index never passes the last step: from mounting on, whatever the
    clicks and replies, [activeStep] is at most 4; and on the last step
    Continue leaves the index alone: with a session (and the button at
    hand) it sends the request that completes the setup, without one it
    does nothing. *)
Theorem wizard_never_past_last_step (events : list Event) :
  let w := run events mounted in
  (activeStep (ui w) <= 4)%Z
  /\ (if (activeStep (ui w) =? 4)%Z
      then activeStep (ui (step w ClickNext)) = 4%Z
           /\ (if enabled ClickNext w && has_session (ui w)
               then inflight (step w ClickNext) = inflight w ++ [CompleteSetup]
               else step w ClickNext = w)
      else True).
Proof.
  intros w. split; [by apply (wizard_inv_run events mounted wizard_inv_mounted)|].
  destruct (Z.eqb_spec (activeStep (ui w)) 4) as [E|_]; [|done].
  unfold step. destruct (enabled ClickNext w); [|done].
  rewrite ui_settle, inflight_settle. unfold fire, handleNext, completeSetup.
  change (Z.of_nat (length steps) - 1)%Z with 4%Z. rewrite E. simpl.
  destruct (has_session (ui w)); [done|]. split; [done|].
  unfold settle. by rewrite Z.eqb_refl.
Qed.

Lemma step_from_zero_up (w : World) (e : Event) :
  (0 <= activeStep (ui w))%Z ->
  match e with
  | ClickBack index => (index =? activeStep (ui w))%Z
  | _ => true
  end = true ->
  (0 <= activeStep (ui (step w e)))%Z.
Proof.
  intros Ha He. unfold step. destruct (enabled e w) eqn:Hen; [|done].
  rewrite ui_settle.
  destruct e as [|index| |ft| |has_text| | |ft|index|r|sv r|r|r|ft r];
    simpl in Hen; unfold fire.
  - (* ClickNext *)
    unfold handleNext, completeSetup.
    destruct (activeStep (ui w) =? _)%Z.
    + by destruct (has_session (ui w)).
    + destruct (has_session (ui w)); simpl; [|lia].
      destruct (in_switch (activeStep (ui w))); simpl; lia.
  - (* ClickBack, on the active step, which is not the first *)
    apply andb_true_iff in Hen as [_ Hen]. apply negb_true_iff in Hen.
    apply Z.eqb_eq in He. apply Z.eqb_neq in Hen. simpl. lia.
  - done.
  - done.
  - done.
  - unfold handleCsvUpload.
    by destruct (negb (has_session (ui w)) || negb has_text).
  - done.
  - done.
  - done.
  - done.
  - by destruct r.
  - unfold handleNext_resume. simpl.
    destruct r as [d| |]; simpl; [destruct (is_valid d)|..]; simpl; lia.
  - by destruct r.
  - destruct r as [d| |]; simpl; [by destruct (csv_success d)|done..].
  - unfold downloadTemplate_reply. by destruct r.
Qed.

Lemma run_from_zero_up (events : list Event) :
  forall w, (0 <= activeStep (ui w))%Z ->
            backs_on_active_step events w = true ->
            (0 <= activeStep (ui (run events w)))%Z.
Proof.
  induction events as [|e events IH]; intros w Ha Hb; [done|].
  simpl in Hb. apply andb_true_iff in Hb as [He Hb].
  simpl. apply IH; [|done]. by apply step_from_zero_up.
Qed.

(** What is left of the lower bound: as long as every Back click lands on
    the Back button of the step that is active at that moment, the index
    stays within 0 to 4, whatever the other clicks and the replies. *)
Theorem back_on_active_step_keeps_range (events : list Event) :
  backs_on_active_step events mounted = true ->
  (0 <= activeStep (ui (run events mounted)) <= 4)%Z.
Proof.
  intros Hback.
  split; [|by apply (wizard_inv_run events mounted wizard_inv_mounted)].
  by apply run_from_zero_up.
Qed.

Lemma back_on_active_step_keeps_range_witness :
  (0 <= activeStep (ui (run Samples.there_and_back mounted)) <= 4)%Z.
Proof.
  apply (back_on_active_step_keeps_range Samples.there_and_back).
  vm_compute. reflexivity.
Defined.

(** Download Template: the click sends its request without touching a
    state cell, so without [loading] and whether or not there is a session;
    an OK reply makes the browser download [<fileType>_template.csv] with
    the content received, a response that is not OK is passed over in
    silence, and an exception shows ['Error downloading template'].
    [loading] and the requests that set it are as before throughout. *)
Theorem template_download_needs_no_session (fileType : string) (r : Reply string)
    (w : World) :
  fileType_on_screen fileType w = true ->
  let w1 := step w (ClickDownload fileType) in
  let w2 := step w1 (GotTemplate fileType r) in
  ui w1 = ui w
  /\ inflight w1 = inflight w ++ [DownloadTemplate fileType]
  /\ downloads w2
     = downloads w ++ match r with
                      | Ok data => [(fileType +:+ "_template.csv", data)]
                      | _ => []
                      end
  /\ error (ui w2) = match r with
                     | Thrown => Some "Error downloading template"
                     | _ => error (ui w)
                     end
  /\ loading (ui w2) = loading (ui w)
  /\ List.filter sets_loading (inflight w2) = List.filter sets_loading (inflight w).
Proof.
  intros Hscreen w1 w2.
  assert (E1 : w1 = downloadTemplate fileType w).
  { unfold w1, step. simpl enabled. rewrite Hscreen.
    unfold settle, fire, downloadTemplate. simpl. by rewrite Z.eqb_refl. }
  assert (Hin : bool_decide (DownloadTemplate fileType ∈ inflight w1) = true).
  { apply bool_decide_eq_true. rewrite E1. simpl. apply elem_of_app. right.
    by apply list_elem_of_singleton. }
  assert (E2 : w2 = downloadTemplate_reply fileType r
                      (receive (DownloadTemplate fileType) w1)).
  { unfold w2, step. simpl enabled. rewrite Hin. unfold fire, settle.
    destruct r; simpl; by rewrite Z.eqb_refl. }
  split; [by rewrite E1|]. split; [by rewrite E1|].
  rewrite E2, E1.
  assert (Hfl : List.filter sets_loading
                  (remove1 (DownloadTemplate fileType)
                     (inflight w ++ [DownloadTemplate fileType]))
                = List.filter sets_loading (inflight w)).
  { rewrite awaited_remove1_false by done.
    rewrite List.filter_app. simpl. apply app_nil_r. }
  destruct r as [data|detail|]; simpl; rewrite ?app_nil_r; by repeat split.
Qed.

Lemma template_download_needs_no_session_witness :
  let w := Samples.wizard_on_menu_items in
  let w1 := step w (ClickDownload "menu_items") in
  let w2 := step w1 (GotTemplate "menu_items" (Ok "name,price")) in
  ui w1 = ui w
  /\ inflight w1 = inflight w ++ [DownloadTemplate "menu_items"]
  /\ downloads w2 = downloads w ++ [("menu_items_template.csv", "name,price")]
  /\ error (ui w2) = error (ui w)
  /\ loading (ui w2) = loading (ui w)
  /\ List.filter sets_loading (inflight w2) = List.filter sets_loading (inflight w).
Proof.
  apply (template_download_needs_no_session "menu_items" (Ok "name,price")
           Samples.wizard_on_menu_items).
  vm_compute. reflexivity.
Defined.

Lemma not_awaited_nil {A : Type} `{EqDecision A} (x : A) :
  bool_decide (x ∈ @nil A) = false.
Proof. apply bool_decide_eq_false. apply not_elem_of_nil. Qed.

Lemma not_on_screen_at_mount (index : Z) :
  index <> 0%Z -> on_screen index mounted = false.
Proof.
  intros Hne. unfold on_screen.
  change (leaving mounted) with (@nil Z).
  change (activeStep (ui mounted)) with 0%Z.
  rewrite not_awaited_nil, orb_false_r.
  apply andb_false_iff. right. by apply Z.eqb_neq.
Qed.

Lemma fileType_off_screen_at_mount (fileType : string) :
  fileType_on_screen fileType mounted = false.
Proof.
  unfold fileType_on_screen, step_of_fileType.
  destruct (JS.seq fileType "menu_items"); [by apply not_on_screen_at_mount|].
  destruct (JS.seq fileType "ingredients"); [by apply not_on_screen_at_mount|].
  destruct (JS.seq fileType "suppliers"); [by apply not_on_screen_at_mount|done].
Qed.

Lemma step_at_mount (e : Event) :
  match e with
  | GotSession _ => True
  | _ => step mounted e = mounted
  end.
Proof.
  destruct e as [|index| |ft| |has_text| | |ft|index|r|sv r|r|r|ft r];
    try done; unfold step.
  - (* ClickBack *)
    simpl enabled. destruct (Z.eqb_spec index 0) as [->|Hne]; [done|].
    by rewrite not_on_screen_at_mount.
  - (* OpenCsv *) simpl enabled. by rewrite fileType_off_screen_at_mount.
  - (* ClickDownload *) simpl enabled. by rewrite fileType_off_screen_at_mount.
Qed.

Lemma past_spinner_settle (before after : World) :
  past_spinner after -> past_spinner (settle before after).
Proof. unfold past_spinner. by rewrite ui_settle, inflight_settle. Qed.

Lemma past_spinner_send (p : Pending) (w : World) :
  p <> CreateSession -> has_session (ui w) = true ->
  past_spinner w -> past_spinner (send p w).
Proof.
  intros Hp Hs [Hnot _]. split.
  - simpl. intros H. apply elem_of_app in H as [H|H]; [done|].
    apply list_elem_of_singleton in H. congruence.
  - unfold spinner. simpl. change (has_session (setLoading true (ui w)))
      with (has_session (ui w)). by rewrite Hs.
Qed.

(** A handler that keeps the requests in flight, and [loading] and the
    session as they are (or [loading] off). *)
Lemma past_spinner_cells (w : World) (s' : State) (fl : list Pending) (l : list Z)
    (d : list (string * string)) :
  (forall p, p ∈ fl -> p ∈ inflight w) ->
  spinner s' = false ->
  past_spinner w ->
  past_spinner {| ui := s'; inflight := fl; leaving := l; downloads := d |}.
Proof.
  intros Hfl Hs [Hnot _]. split; [|done]. simpl. intros H. by apply Hnot, Hfl.
Qed.

Lemma past_spinner_step (w : World) (e : Event) :
  past_spinner w -> past_spinner (step w e).
Proof.
  intros Hw. unfold step. destruct (enabled e w) eqn:Hen; [|done].
  apply past_spinner_settle. pose proof Hw as [Hnot Hsp].
  destruct e as [|index| |ft| |has_text| | |ft|index|r|sv r|r|r|ft r];
    simpl in Hen; unfold fire.
  - (* ClickNext *)
    apply andb_true_iff in Hen as [_ Hen]. apply negb_true_iff in Hen.
    unfold handleNext, completeSetup.
    destruct (activeStep (ui w) =? _)%Z.
    + destruct (has_session (ui w)) eqn:Hs; [|done].
      by apply past_spinner_send.
    + destruct (has_session (ui w)) eqn:Hs; simpl.
      * destruct (in_switch (activeStep (ui w))); [by apply past_spinner_send|].
        by apply (past_spinner_cells w).
      * apply (past_spinner_cells w); [done| |done]. unfold spinner. simpl.
        by rewrite Hen.
  - (* ClickBack *) by apply (past_spinner_cells w).
  - (* ClickReset *) by apply (past_spinner_cells w).
  - (* OpenCsv *) by apply (past_spinner_cells w).
  - (* CloseCsv *) by apply (past_spinner_cells w).
  - (* ClickUpload *)
    unfold handleCsvUpload. destruct (has_session (ui w)) eqn:Hs; [|done].
    destruct has_text; [|done]. by apply past_spinner_send.
  - (* CloseSuccess *) by apply (past_spinner_cells w).
  - (* CloseError *) by apply (past_spinner_cells w).
  - (* ClickDownload *)
    split; [|done]. simpl. intros H. apply elem_of_app in H as [H|H]; [done|].
    by apply list_elem_of_singleton in H.
  - (* Collapsed *) by apply (past_spinner_cells w).
  - (* GotSession *) by apply bool_decide_eq_true in Hen.
  - (* GotSave *)
    apply (past_spinner_cells w); [intros q; apply elem_of_remove1| |done].
    destruct r as [d| |]; simpl; [by destruct (is_valid d)|done..].
  - (* GotComplete *)
    apply (past_spinner_cells w); [intros q; apply elem_of_remove1| |done]. by destruct r.
  - (* GotCsv *)
    apply (past_spinner_cells w); [intros q; apply elem_of_remove1| |done].
    destruct r as [d| |]; simpl; [by destruct (csv_success d)|done..].
  - (* GotTemplate *)
    unfold downloadTemplate_reply.
    destruct r; (apply (past_spinner_cells w); [intros q; apply elem_of_remove1|done|done]).
Qed.

Lemma mounted_or_past_spinner (events : list Event) :
  forall w, w = mounted \/ past_spinner w ->
            run events w = mounted \/ past_spinner (run events w).
Proof.
  induction events as [|e events IH]; intros w Hw; [done|].
  simpl. apply IH. destruct Hw as [->|Hw].
  - pose proof (step_at_mount e) as He.
    destruct e as [|index| |ft| |has_text| | |ft|index|r|sv r|r|r|ft r];
      try (by left).
    right. unfold step. simpl enabled. cbv iota.
    apply past_spinner_settle. split; [simpl; apply not_elem_of_nil|].
    by destruct r.
  - right. by apply past_spinner_step.
Qed.

(** The spinner that replaces the whole page while [loading && !sessionId]
    is only ever shown between mounting and the reply to [createSession]:
    from mounting on, whatever the clicks and replies, a state with
    [loading] set and no session is the state right after mounting; and in
    that state no click and no other reply changes anything. *)
Theorem spinner_only_while_session_is_created (events : list Event) (e : Event) :
  let w := run events mounted in
  (if spinner (ui w) then w = mounted else True)
  /\ match e with
     | GotSession _ => True
     | _ => step mounted e = mounted
     end.
Proof.
  intros w. split; [|apply step_at_mount].
  destruct (spinner (ui w)) eqn:Hsp; [|done].
  destruct (mounted_or_past_spinner events mounted) as [E|[_ Hno]]; [by left|done|].
  fold w in Hno. congruence.
Qed.

End SetupWizard_more.
